(** * drone_monitoring.py: anomaly map layers and the COA workflow

    A shallow embedding of the decision logic of [drone_monitoring.py], a
    Streamlit script.  Streamlit executes the whole script from top to bottom
    on every operator interaction; what survives between two executions is
    [st.session_state] and the [st.cache_data] store.  The embedding follows
    the script in source order:

    - Python values, exceptions and [range];
    - the anomaly table ([pd.read_csv(path).head(100)] behind
      [st.cache_data]), the weight column and the two pydeck layers;
    - the session state, the two buttons and the monitoring countdown,
      written in a small state-and-exception monad that also logs the
      calls made to the user interface. *)

From Stdlib Require Import ZArith QArith Lia.
From stdpp Require Import gmap strings list fin_maps.

Local Open Scope string_scope.
Local Open Scope list_scope.
Local Open Scope Z_scope.

(** ** Python values *)

Module Py.

(** The values the script stores in [st.session_state]. *)
Inductive value : Type :=
| VNone
| VBool (b : bool)
| VStr (s : string).

(** Truth value of an object, as tested by [if]. *)
Definition truthy (v : value) : bool :=
  match v with
  | VNone => false
  | VBool b => b
  | VStr s => negb (String.eqb s "")
  end.

(** An exception, identified by the name of its class. *)
Inductive exn : Type := Exn (class : string).

Inductive result (A : Type) : Type :=
| Ok (a : A)
| Raise (e : exn).
Arguments Ok {A} a.
Arguments Raise {A} e.

(** [range(start, stop, step)] for a non-zero [step], as a list. *)
Definition range_len (start stop step : Z) : nat :=
  if 0 <? step then Z.to_nat ((stop - start + step - 1) / step)
  else Z.to_nat ((start - stop - step - 1) / (- step)).

Definition range (start stop step : Z) : list Z :=
  (λ i : nat, start + Z.of_nat i * step) <$> seq 0 (range_len start stop step).

End Py.

Import Py.

(** ** Tables *)

(** A cell of a text column of the table read by [pd.read_csv]: a string, or
    NaN where the file has no value. *)
Inductive cell : Type :=
| CStr (s : string)
| CNaN.

(** A cell of the numeric [weight] column: a number, or NaN. *)
Inductive number : Type :=
| Num (z : Z)
| NaN.

(** [cell == s] for a string literal [s]. *)
Definition cell_eq (c : cell) (s : string) : bool :=
  match c with
  | CStr t => String.eqb t s
  | CNaN => false
  end.

(** [DataFrame.head(n)]: the first [n] rows, or all but the last [-n] rows
    when [n] is negative. *)
Definition head {A : Type} (n : Z) (df : list A) : list A :=
  if 0 <=? n then take (Z.to_nat n) df
  else take (length df - Z.to_nat (- n)) df.

(** [Series.map(d)] on one cell, for a dict [d]: the value under the cell's
    key, NaN when the dict has no such key. *)
Definition series_map (d : gmap string Z) (c : cell) : number :=
  match c with
  | CStr s => match d !! s with Some z => Num z | None => NaN end
  | CNaN => NaN
  end.

(** Line 25. *)
Definition threat_level_weights : gmap string Z :=
  <["High" := 3]> (<["Medium" := 2]> (<["Low" := 1]> ∅)).

(** The conditional expression of the [get_color] comprehension,
    lines 100-102. *)
Definition get_color (threat_level : cell) : string :=
  if cell_eq threat_level "High" then "255, 0, 0, 160"
  else if cell_eq threat_level "Medium" then "255, 165, 0, 160"
  else "0, 128, 0, 160".

(** The three levels that [threat_level_weights] knows. *)
Definition recognized (level : cell) : Prop :=
  level = CStr "High" ∨ level = CStr "Medium" ∨ level = CStr "Low".

(** The two encodings of the threat level of one record, as evaluations that
    return or raise: the weight is line 26 for one cell, the colour is
    lines 100-102.  Neither expression has a path that raises. *)
Module ThreatEncoder.

Definition weight (level : cell) : result number :=
  Ok (series_map threat_level_weights level).

Definition color (level : cell) : result string :=
  Ok (get_color level).

End ThreatEncoder.

Definition red : string := "255, 0, 0, 160".
Definition orange : string := "255, 165, 0, 160".
Definition green : string := "0, 128, 0, 160".

Definition lbrace : Ascii.ascii := Ascii.ascii_of_nat 123.
Definition rbrace : Ascii.ascii := Ascii.ascii_of_nat 125.

(** The names in braces of a tooltip template, in order of occurrence: the
    fields the renderer substitutes from the picked row. *)
Fixpoint scan_fields (s : string) (cur : option string) : list string :=
  match s with
  | EmptyString => []
  | String c s' =>
      match cur with
      | None =>
          if Ascii.eqb c lbrace then scan_fields s' (Some "") else scan_fields s' None
      | Some acc =>
          if Ascii.eqb c rbrace then acc :: scan_fields s' None
          else scan_fields s' (Some (acc +:+ String c ""))
      end
  end.

Definition template_fields (html : string) : list string := scan_fields html None.

(** The COA table, lines 128-137. *)
Record coa_row : Type := {
  coa : string;
  coa_action : string;
  execution_time : string;
  success_rate : string
}.

Definition coa_data : list coa_row := [
  {| coa := "COA 1";
     coa_action := "Deploy drones to monitor high-threat anomalies.";
     execution_time := "15 mins"; success_rate := "87.3" |};
  {| coa := "COA 2";
     coa_action := "Coordinate ground units to investigate specific points of interest.";
     execution_time := "45 mins"; success_rate := "56.2" |};
  {| coa := "COA 3";
     coa_action := "Use electronic warfare to disrupt potential threats.";
     execution_time := "30 mins"; success_rate := "78.9" |}
].

(** The options of the two radio buttons, lines 79 and 141. *)
Definition layer_options : list string := ["Heatmap"; "Scatterplot"].
Definition coa_options : list string := ["COA 1"; "COA 2"; "COA 3"].

(** What the operator did to start this run of the script: the value of
    each radio button, and the button that was clicked, if any.  Streamlit
    reruns the script on every click, so at most one button is clicked in
    a run. *)
Record inputs : Type := {
  layer_option : string;
  chosen_coa : string;
  clicked : option string
}.

Definition valid_inputs (inp : inputs) : Prop :=
  layer_option inp ∈ layer_options ∧ chosen_coa inp ∈ coa_options.

Definition drone_anomaly_path : string := "drone_anomaly_actions.csv".

Section Script.

(** The type of the coordinates.  The script never computes with them. *)
Context {coord : Type}.

(** A row of [drone_anomaly_actions.csv]. *)
Record row : Type := {
  latitude : coord;
  longitude : coord;
  anomaly_type : cell;
  threat_level : cell;
  recommended_action : cell
}.

(** A table as [pd.read_csv] returns it: the names of its columns and its
    rows.  A row holds a value for each column that the script names; the
    value under a column that the table lacks counts for nothing. *)
Record frame : Type := {
  columns : list string;
  rows : list row
}.

(** [df.head(n)]: the same columns, the first rows. *)
Definition df_head (n : Z) (df : frame) : frame :=
  {| columns := columns df; rows := head n (rows df) |}.

(** A row of [map_data]: the row of the table with its [weight]. *)
Record map_row : Type := {
  source : row;
  weight : number
}.

(** Line 26 on the rows: each row with the weight of its threat level. *)
Definition with_weights (rs : list row) : list map_row :=
  (λ r, {| source := r;
           weight := series_map threat_level_weights (threat_level r) |})
    <$> rs.

(** Lines 22-26: the copy of the table with the [weight] column.
    [map_data["threat_level"]] is a KeyError when the table has no such
    column. *)
Definition map_data (drone_anomalies : frame) : result (list map_row) :=
  if bool_decide ("threat_level" ∈ columns drone_anomalies)
  then Ok (with_weights (rows drone_anomalies))
  else Raise (Exn "KeyError").

(** The value of a row of [map_data] in a named column. *)
Inductive field : Type :=
| FCoord (x : coord)
| FText (c : cell)
| FNumber (n : number).

Definition column (name : string) (r : map_row) : option field :=
  if String.eqb name "latitude" then Some (FCoord (latitude (source r)))
  else if String.eqb name "longitude" then Some (FCoord (longitude (source r)))
  else if String.eqb name "anomaly_type" then Some (FText (anomaly_type (source r)))
  else if String.eqb name "threat_level" then Some (FText (threat_level (source r)))
  else if String.eqb name "recommended_action"
    then Some (FText (recommended_action (source r)))
  else if String.eqb name "weight" then Some (FNumber (weight r))
  else None.

(** ** The map layer, lines 82-121 *)

(** A keyword argument of [pdk.Layer].  The strings that the script passes
    are names of columns. *)
Inductive kwarg : Type :=
| KStr (s : string)
| KList (l : list string)
| KInt (z : Z)
| KFloat (q : Q)
| KBool (b : bool).

(** What [pdk.Layer] keeps of a keyword argument.  A string becomes an
    expression that the renderer evaluates on each row, marked by "@@=" in
    front.  A list of strings that is not empty is joined into one such
    expression, "@@=[a, b, ...]".  Any other value is kept as it is. *)
Definition layer_prop (v : kwarg) : kwarg :=
  match v with
  | KStr s => KStr ("@@=" +:+ s)
  | KList (x :: l) => KStr ("@@=[" +:+ String.concat ", " (x :: l) +:+ "]")
  | _ => v
  end.

Record layer : Type := {
  layer_type : string;
  data : list map_row;
  props : list (string * kwarg)
}.

(** [pdk.Layer(type, data=data, **kwargs)] *)
Definition pdk_Layer (type : string) (data : list map_row)
    (kwargs : list (string * kwarg)) : layer :=
  {| layer_type := type;
     data := data;
     props := (λ kv, (kv.1, layer_prop kv.2)) <$> kwargs |}.

(** The list comprehension of lines 99-104: a colour for each row. *)
Definition color_list (map_data : list map_row) : list string :=
  (λ r, get_color (threat_level (source r))) <$> map_data.

(** Lines 84-107. *)
Definition build_layer (layer_option : string) (map_data : list map_row) : layer :=
  if String.eqb layer_option "Heatmap" then
    pdk_Layer "HeatmapLayer" map_data
      [("get_position", KList ["longitude"; "latitude"]);
       ("get_weight", KStr "weight");
       ("intensity", KInt 10);
       ("radius_pixels", KInt 60);
       ("threshold", KFloat (2 # 10))]
  else
    pdk_Layer "ScatterplotLayer" map_data
      [("get_position", KList ["longitude"; "latitude"]);
       ("get_color", KList (color_list map_data));
       ("get_radius", KInt 1000);
       ("pickable", KBool true)].

Record view_state : Type := {
  vs_latitude : Q;
  vs_longitude : Q;
  zoom : Z;
  pitch : Z
}.

Record deck : Type := {
  layers : list layer;
  initial_view_state : view_state;
  tooltip_html : string;
  tooltip_style : list (string * string);
  map_style : string
}.

Definition tooltip_html_template : string :=
"
                <b>Anomaly Type:</b> {anomaly_type}<br>
                <b>Threat Level:</b> {threat_level}<br>
                <b>Recommended Action:</b> {recommended_action}
            ".

(** Lines 109-121. *)
Definition map_deck (l : layer) : deck :=
  {| layers := [l];
     initial_view_state :=
       {| vs_latitude := 505 # 100; vs_longitude := 11825 # 100;
          zoom := 10; pitch := 40 |};
     tooltip_html := tooltip_html_template;
     tooltip_style := [("backgroundColor", "steelblue"); ("color", "white")];
     map_style := "mapbox://styles/mapbox/dark-v10" |}.

(** What a layer keeps under a name. *)
Fixpoint kwarg_of (name : string) (kwargs : list (string * kwarg)) : option kwarg :=
  match kwargs with
  | [] => None
  | (k, v) :: rest => if String.eqb k name then Some v else kwarg_of name rest
  end.

Definition prop (name : string) (l : layer) : option kwarg :=
  kwarg_of name (props l).

(** [s] without the prefix [p], when it has it. *)
Fixpoint strip_prefix (p s : string) : option string :=
  match p, s with
  | EmptyString, _ => Some s
  | String a p', String b s' => if Ascii.eqb a b then strip_prefix p' s' else None
  | String _ _, EmptyString => None
  end.

(** The value on a row of an expression that is the name of a column, as
    "@@=weight" is.  Other expressions are not evaluated here. *)
Definition expression_value (expression : string) (r : map_row) : option field :=
  match strip_prefix "@@=" expression with
  | Some name => column name r
  | None => None
  end.

(** The weight the heatmap takes for a row: the value of its [get_weight]
    on the row. *)
Definition point_weight (l : layer) (r : map_row) : option field :=
  match prop "get_weight" l with
  | Some (KStr expression) => expression_value expression r
  | _ => None
  end.

Definition point_radius (l : layer) : option Z :=
  match prop "get_radius" l with
  | Some (KInt z) => Some z
  | _ => None
  end.

Definition is_pickable (l : layer) : bool :=
  match prop "pickable" l with
  | Some (KBool b) => b
  | _ => false
  end.

End Script.

Arguments row : clear implicits.
Arguments frame : clear implicits.
Arguments map_row : clear implicits.
Arguments field : clear implicits.
Arguments layer : clear implicits.
Arguments deck : clear implicits.

(** ** Running the script *)

Section Run.

Context {coord : Type}.

(** What survives a run of the script: the [st.cache_data] store of
    [load_drone_anomalies], keyed by the function's argument, and
    [st.session_state]. *)
Record state : Type := {
  cache : gmap string (frame coord);
  session_state : gmap string value
}.

(** What a run does to the outside, in program order: the files it reads,
    the time it sleeps, the elements it draws.  An assignment to
    [st.session_state] is logged as well. *)
Inductive event : Type :=
| ReadCsv (path : string)
| SetState (key : string) (v : value)
| Sleep (secs : Z)
| Markdown (body : string)
| Header (body : string)
| Subheader (body : string)
| Video (url : string) (autoplay muted loop : bool)
| PydeckChart (d : deck coord)
| Button (label : string)
| Success (body : string)
| Info (body : string)
| Warning (body : string).

(** A piece of the script: from the state before it, its value or the
    exception it raises, the state after it and the events of it.  The
    state changes made before an exception stay. *)
Definition M (A : Type) : Type := state → result A * state * list event.

Definition ret {A : Type} (a : A) : M A := λ s, (Ok a, s, []).

Definition bind {A B : Type} (m : M A) (f : A → M B) : M B :=
  λ s,
    match m s with
    | (Ok a, s', l) => let '(r, s'', l') := f a s' in (r, s'', l ++ l')
    | (Raise e, s', l) => (Raise e, s', l)
    end.

Definition raise {A : Type} (class : string) : M A := λ s, (Raise (Exn class), s, []).

Definition emit (e : event) : M unit := λ s, (Ok tt, s, [e]).

(** An expression that touches neither the state nor the outside. *)
Definition lift {A : Type} (r : result A) : M A := λ s, (r, s, []).

Local Notation "x <- m ;; k" := (bind m (λ x, k))
  (at level 100, m at next level, right associativity).
Local Notation "m ;; k" := (bind m (λ _, k))
  (at level 100, right associativity).

(** [if c: body] *)
Definition when (c : bool) (body : M unit) : M unit := if c then body else ret tt.

(** [for x in xs: body] *)
Fixpoint for_each {A : Type} (xs : list A) (body : A → M unit) : M unit :=
  match xs with
  | [] => ret tt
  | x :: xs' => body x;; for_each xs' body
  end.

(** *** [st.session_state] *)

(** [key not in st.session_state] *)
Definition session_lacks (key : string) : M bool :=
  λ s, (Ok (bool_decide (session_state s !! key = None)), s, []).

(** [st.session_state.key], an AttributeError when there is no such key. *)
Definition session_attr (key : string) : M value :=
  λ s,
    match session_state s !! key with
    | Some v => (Ok v, s, [])
    | None => (Raise (Exn "AttributeError"), s, [])
    end.

(** [st.session_state.get(key)] *)
Definition session_get (key : string) : M value :=
  λ s, (Ok (default VNone (session_state s !! key)), s, []).

(** [st.session_state.key = v] *)
Definition assign (key : string) (v : value) (s : state) : state :=
  {| cache := cache s; session_state := <[key := v]> (session_state s) |}.

Definition session_set (key : string) (v : value) : M unit :=
  λ s, (Ok tt, assign key v s, [SetState key v]).

(** [st.button(label)]: draws the button; true in the run that its click
    started. *)
Definition button (inp : inputs) (label : string) : M bool :=
  emit (Button label);;
  ret (bool_decide (clicked inp = Some label)).

(** *** Reading the table, lines 11-19 *)

(** The files on disk: what [pd.read_csv] gives for a path. *)
Definition disk : Type := string → result (frame coord).

Definition read_csv (d : disk) (path : string) : M (frame coord) :=
  λ s, (d path, s, [ReadCsv path]).

(** The body of [load_drone_anomalies], line 13. *)
Definition load_body (d : disk) (path : string) : M (frame coord) :=
  df <- read_csv d path;;
  ret (df_head 100 df).

(** [@st.cache_data], line 11: a call whose argument is in the store
    returns the stored value and does not run the body; otherwise the body
    runs and its value is stored.  An exception stores nothing. *)
Definition cache_data (body : string → M (frame coord)) (path : string)
  : M (frame coord) :=
  λ s,
    match cache s !! path with
    | Some df => (Ok df, s, [])
    | None =>
        match body path s with
        | (Ok df, s', l) =>
            (Ok df,
             {| cache := <[path := df]> (cache s');
                session_state := session_state s' |},
             l)
        | (Raise e, s', l) => (Raise e, s', l)
        end
    end.

Definition load_drone_anomalies (d : disk) : string → M (frame coord) :=
  cache_data (load_body d).

(** *** The workflow *)

Definition disable_hover_css : string :=
"
    <style>
    video {
        pointer-events: none; /* Disable all mouse interactions */
        user-select: none;    /* Prevent text selection */
        outline: none;        /* Disable focus outlines */
    }
    </style>
    ".

(** Lines 29-42. *)
Definition show_video (header video_url : string) (autoplay muted loop : bool)
  : M unit :=
  emit (Markdown disable_hover_css);;
  emit (Subheader header);;
  emit (Video video_url autoplay muted loop).

(** Lines 45-52. *)
Definition session_state_init : M unit :=
  (b <- session_lacks "alert_triggered";;
   when b (session_set "alert_triggered" (VBool false)));;
  (b <- session_lacks "show_surveillance";;
   when b (session_set "show_surveillance" (VBool false)));;
  (b <- session_lacks "coa_selected";;
   when b (session_set "coa_selected" VNone)).

(** [coa_data.loc[coa_data['COA'] == chosen_coa, 'Recommended Action'].values[0]],
    an IndexError when no row of the table has this COA. *)
Definition coa_action_of (chosen_coa : string) : M string :=
  match filter (λ r, coa r = chosen_coa) coa_data with
  | r :: _ => ret (coa_action r)
  | [] => raise "IndexError"
  end.

(** Lines 144-148: the button "Execute Selected COA" and its handler. *)
Definition execute_selected_coa (inp : inputs) : M unit :=
  b <- button inp "Execute Selected COA";;
  when b
    (session_set "coa_selected" (VStr (chosen_coa inp));;
     session_set "alert_triggered" (VBool false);;
     session_set "show_surveillance" (VBool false);;
     action <- coa_action_of (chosen_coa inp);;
     emit (Success ("Executing " +:+ chosen_coa inp +:+ ": " +:+ action))).

(** Lines 207-209: the countdown. *)
Definition countdown : M unit :=
  for_each (range 10 0 (-1))
    (λ remaining_time,
       emit (Info "Monitoring Selected Perimeter...");;
       emit (Sleep 1)).

(** Lines 217-219: the button "View Surveillance Video" and its handler. *)
Definition view_surveillance (inp : inputs) : M unit :=
  alert <- session_attr "alert_triggered";;
  when (truthy alert)
    (b <- button inp "View Surveillance Video";;
     when b (session_set "show_surveillance" (VBool true))).

(** Lines 195-230. *)
Definition activity_monitoring (inp : inputs) : M unit :=
  selected <- session_get "coa_selected";;
  when (truthy selected)
    (emit (Header "Drone Activity Monitoring");;
     show_video "Normal Operation" "https://i.imgur.com/h4ghtfH.mp4" true false true;;
     countdown;;
     session_set "alert_triggered" (VBool true);;
     emit (Warning "⚠️ Suspicious activity detected!");;
     view_surveillance inp;;
     emit (Header "");;
     shown <- session_attr "show_surveillance";;
     when (truthy shown)
       (show_video "Suspicious Activity Detected" "https://i.imgur.com/o64VTM8.mp4"
          true false true)).

(** One run of the script.  The static tables and charts are left out. *)
Definition script (d : disk) (inp : inputs) : M unit :=
  drone_anomalies <- load_drone_anomalies d drone_anomaly_path;;
  map_data <- lift (map_data drone_anomalies);;
  session_state_init;;
  emit (PydeckChart (map_deck (build_layer (layer_option inp) map_data)));;
  execute_selected_coa inp;;
  activity_monitoring inp.

(** *** The life of the server *)

Definition result_of {A : Type} (x : result A * state * list event) : result A := x.1.1.
Definition state_after {A : Type} (x : result A * state * list event) : state := x.1.2.
Definition events_of {A : Type} (x : result A * state * list event) : list event := x.2.

(** The server starts with an empty store and no session. *)
Definition start : state := {| cache := ∅; session_state := ∅ |}.

(** A new session starts with an empty [st.session_state]; the store
    lives as long as the server. *)
Definition new_session (s : state) : state :=
  {| cache := cache s; session_state := ∅ |}.

(** The states between two runs of the script. *)
Inductive reachable : state → Prop :=
| reachable_start : reachable start
| reachable_session s : reachable s → reachable (new_session s)
| reachable_run d inp s :
    reachable s → reachable (state_after (script d inp s)).

(** The runs of one session on one disk, a run for each action of the
    operator: the state after the last and the log of all. *)
Fixpoint runs (d : disk) (actions : list inputs) (s : state)
  : state * list event :=
  match actions with
  | [] => (s, [])
  | inp :: rest =>
      let '(s', l) := runs d rest (state_after (script d inp s)) in
      (s', events_of (script d inp s) ++ l)
  end.

(** *** Reading a log *)

(** The seconds slept, in order. *)
Definition sleeps (l : list event) : list Z :=
  omap (λ e, match e with Sleep n => Some n | _ => None end) l.

(** The values assigned to a key of the session state, in order. *)
Definition writes (key : string) (l : list event) : list value :=
  omap (λ e, match e with
             | SetState k v => if String.eqb k key then Some v else None
             | _ => None
             end) l.

(** The paths read, in order. *)
Definition files_read (l : list event) : list string :=
  omap (λ e, match e with ReadCsv p => Some p | _ => None end) l.

(** The maps drawn, in order. *)
Definition charts (l : list event) : list (deck coord) :=
  omap (λ e, match e with PydeckChart d => Some d | _ => None end) l.

(** The videos played, in order. *)
Definition videos (l : list event) : list string :=
  omap (λ e, match e with Video url _ _ _ => Some url | _ => None end) l.

(** How often a true value is assigned to [alert_triggered]. *)
Definition alerts (l : list event) : nat :=
  length (List.filter truthy (writes "alert_triggered" l)).

(** The log from the first assignment to [key] on, that assignment
    included; empty when there is none. *)
Fixpoint from_write (key : string) (l : list event) : list event :=
  match l with
  | [] => []
  | SetState k v :: l' =>
      if String.eqb k key then l else from_write key l'
  | _ :: l' => from_write key l'
  end.

(** *** Invariants *)

(** A piece of the script that leaves the store alone. *)
Definition keeps_cache {A : Type} (m : M A) : Prop :=
  ∀ s, cache (state_after (m s)) = cache s.

(** No table in the store has more than 100 rows. *)
Definition cache_bounded (s : state) : Prop :=
  ∀ (path : string) df, cache s !! path = Some df → (length (rows df) ≤ 100)%nat.

(** A piece of the script that keeps a property of the state, whether it
    returns or raises. *)
Definition preserves {A : Type} (P : state → Prop) (m : M A) : Prop :=
  ∀ s, P s → P (state_after (m s)).

(** The surveillance video is shown only once the alert is on. *)
Definition revealed_after_alert (s : state) : Prop :=
  session_state s !! "show_surveillance" = Some (VBool true) →
  session_state s !! "alert_triggered" = Some (VBool true).

(** The alert is on only while a COA is selected. *)
Definition alert_after_selection (s : state) : Prop :=
  session_state s !! "alert_triggered" = Some (VBool true) →
  truthy (default VNone (session_state s !! "coa_selected")) = true.


(** The three keys of the session state that the script uses. *)
Definition workflow_keys : list string :=
  ["alert_triggered"; "show_surveillance"; "coa_selected"].

End Run.

Arguments state : clear implicits.
Arguments event : clear implicits.
Arguments disk : clear implicits.
Arguments M : clear implicits.

(** ** Sample data *)

Module Sample.

Definition high : row Z :=
  {| latitude := 5; longitude := 118; anomaly_type := CStr "Unauthorized Entry";
     threat_level := CStr "High"; recommended_action := CStr "Deploy drone" |}.

Definition low : row Z :=
  {| latitude := 6; longitude := 117; anomaly_type := CStr "Signal Loss";
     threat_level := CStr "Low"; recommended_action := CStr "Log" |}.

Definition medium : row Z :=
  {| latitude := 4; longitude := 119; anomaly_type := CStr "Loitering";
     threat_level := CStr "Medium"; recommended_action := CStr "Observe" |}.

Definition critical : row Z :=
  {| latitude := 5; longitude := 119; anomaly_type := CStr "Armed Group";
     threat_level := CStr "Critical"; recommended_action := CStr "Evacuate" |}.

(** The columns that the script names. *)
Definition schema : list string :=
  ["latitude"; "longitude"; "anomaly_type"; "threat_level"; "recommended_action"].

(** A table with these columns. *)
Definition frame_of (rs : list (row Z)) : frame Z :=
  {| columns := schema; rows := rs |}.

Definition table : frame Z := frame_of [high; low; medium].

(** A table of some other kind, without a [threat_level] column. *)
Definition unrated : frame Z :=
  {| columns := ["latitude"; "longitude"; "anomaly_type"]; rows := [high; low] |}.

(** A disk with the table under the script's path and nothing else. *)
Definition files (df : frame Z) : disk Z :=
  λ path,
    if String.eqb path drone_anomaly_path then Ok df
    else Raise (Exn "FileNotFoundError").

Definition breach : row Z :=
  {| latitude := 7; longitude := 116; anomaly_type := CStr "Perimeter Breach";
     threat_level := CStr "High"; recommended_action := CStr "Intercept" |}.

(** A disk without the file. *)
Definition missing : disk Z := λ path, Raise (Exn "FileNotFoundError").

(** A server that has the table in its store, in a new session. *)
Definition loaded : state Z :=
  {| cache := {[drone_anomaly_path := table]}; session_state := ∅ |}.

(** A change of the map layer: no button is clicked. *)
Definition toggle : inputs :=
  {| layer_option := "Scatterplot"; chosen_coa := "COA 1"; clicked := None |}.

Definition execute (id : string) : inputs :=
  {| layer_option := "Heatmap"; chosen_coa := id;
     clicked := Some "Execute Selected COA" |}.

Definition view : inputs :=
  {| layer_option := "Heatmap"; chosen_coa := "COA 1";
     clicked := Some "View Surveillance Video" |}.

Definition session (selected alert shown : value) : state Z :=
  {| cache := ∅;
     session_state :=
       <["coa_selected" := selected]>
         (<["alert_triggered" := alert]>
            (<["show_surveillance" := shown]> ∅)) |}.

End Sample.

(** ** Properties *)

Section Properties.

Context {coord : Type}.
Implicit Types (s : state coord) (inp : inputs) (d : disk coord).
Implicit Types (df : frame coord) (records : list (row coord)) (level : cell).

(** *** Python *)

Lemma range_countdown : range 10 0 (-1) = [10; 9; 8; 7; 6; 5; 4; 3; 2; 1].
Proof. reflexivity. Qed.

(** *** The encodings *)

Lemma weights_lookup_other (k : string) :
  k ≠ "High" → k ≠ "Medium" → k ≠ "Low" → threat_level_weights !! k = None.
Proof.
  intros Hh Hm Hl. unfold threat_level_weights.
  rewrite !lookup_insert_ne by done. apply lookup_empty.
Qed.

Lemma series_map_unrecognized level :
  ¬ recognized level → series_map threat_level_weights level = NaN.
Proof.
  intros Hn. destruct level as [k|]; [|done]. simpl.
  rewrite weights_lookup_other; [done| | |];
    intros ->; apply Hn; unfold recognized; auto.
Qed.

Lemma cell_eq_false level (k : string) : level ≠ CStr k → cell_eq level k = false.
Proof.
  intros Hne. destruct level as [t|]; [|done]. simpl.
  apply String.eqb_neq. congruence.
Qed.

Lemma get_color_else level :
  level ≠ CStr "High" → level ≠ CStr "Medium" → get_color level = green.
Proof.
  intros Hh Hm. unfold get_color. by rewrite !cell_eq_false.
Qed.

(** *** The layers *)

Lemma build_layer_data (layer_option : string) (md : list (map_row coord)) :
  data (build_layer layer_option md) = md.
Proof. unfold build_layer. by destruct (String.eqb layer_option "Heatmap"). Qed.

Lemma with_weights_lookup records (i : nat) :
  with_weights records !! i
  = (λ r, {| source := r;
             weight := series_map threat_level_weights (threat_level r) |})
      <$> records !! i.
Proof. unfold with_weights. apply list_lookup_fmap. Qed.

Lemma with_weights_source records : source <$> with_weights records = records.
Proof.
  unfold with_weights. rewrite <- list_fmap_compose.
  induction records as [|r records IH]; [done|]. simpl. by f_equal.
Qed.

Lemma map_data_ok (df : frame coord) :
  "threat_level" ∈ columns df → map_data df = Ok (with_weights (rows df)).
Proof. intros Hc. unfold map_data. by rewrite bool_decide_true. Qed.

Lemma map_data_key_error (df : frame coord) :
  "threat_level" ∉ columns df → map_data df = Raise (Exn "KeyError").
Proof. intros Hc. unfold map_data. by rewrite bool_decide_false. Qed.


Lemma tooltip_fields : template_fields tooltip_html_template
  = ["anomaly_type"; "threat_level"; "recommended_action"].
Proof. reflexivity. Qed.

(** C4.  For every record whose threat level is High, Medium or Low the
    weight is 3, 2, 1 and the colour is red, orange, green; and both
    encodings are functions of the threat level alone: two records with
    the same level get the same weight and the same colour. *)
Theorem threat_encoder_recognized (r1 r2 : row coord) :
  (threat_level r1 = CStr "High" →
     ThreatEncoder.weight (threat_level r1) = Ok (Num 3) ∧
     ThreatEncoder.color (threat_level r1) = Ok red) ∧
  (threat_level r1 = CStr "Medium" →
     ThreatEncoder.weight (threat_level r1) = Ok (Num 2) ∧
     ThreatEncoder.color (threat_level r1) = Ok orange) ∧
  (threat_level r1 = CStr "Low" →
     ThreatEncoder.weight (threat_level r1) = Ok (Num 1) ∧
     ThreatEncoder.color (threat_level r1) = Ok green) ∧
  (threat_level r1 = threat_level r2 →
     ThreatEncoder.weight (threat_level r1) = ThreatEncoder.weight (threat_level r2) ∧
     ThreatEncoder.color (threat_level r1) = ThreatEncoder.color (threat_level r2)).
Proof.
  split_and!.
  - intros ->. split; reflexivity.
  - intros ->. split; reflexivity.
  - intros ->. split; reflexivity.
  - intros Heq. rewrite Heq. split; reflexivity.
Qed.

(** C5, as the script has it.  For every threat level outside High,
    Medium and Low neither encoding raises: the weight is NaN and the
    colour is green. *)
Theorem threat_encoder_unrecognized level :
  ¬ recognized level →
  ThreatEncoder.weight level = Ok NaN ∧ ThreatEncoder.color level = Ok green.
Proof.
  intros Hn. unfold ThreatEncoder.weight, ThreatEncoder.color.
  rewrite series_map_unrecognized by done.
  rewrite get_color_else; [done| |]; intros ->; apply Hn; unfold recognized; auto.
Qed.


(** *** The monad *)

Lemma state_after_bind {A B : Type} (m : M coord A) (f : A → M coord B) s :
  state_after (bind m f s)
  = match result_of (m s) with
    | Ok a => state_after (f a (state_after (m s)))
    | Raise _ => state_after (m s)
    end.
Proof.
  unfold bind, state_after, result_of.
  destruct (m s) as [[[a|e] s'] l]; simpl; [|done].
  by destruct (f a s') as [[r s''] l'].
Qed.

Lemma events_of_bind {A B : Type} (m : M coord A) (f : A → M coord B) s :
  events_of (bind m f s)
  = match result_of (m s) with
    | Ok a => events_of (m s) ++ events_of (f a (state_after (m s)))
    | Raise _ => events_of (m s)
    end.
Proof.
  unfold bind, state_after, result_of, events_of.
  destruct (m s) as [[[a|e] s'] l]; simpl; [|done].
  by destruct (f a s') as [[r s''] l'].
Qed.

Lemma result_of_bind {A B : Type} (m : M coord A) (f : A → M coord B) s :
  result_of (bind m f s)
  = match result_of (m s) with
    | Ok a => result_of (f a (state_after (m s)))
    | Raise e => Raise e
    end.
Proof.
  unfold bind, state_after, result_of.
  destruct (m s) as [[[a|e] s'] l]; simpl; [|done].
  by destruct (f a s') as [[r s''] l'].
Qed.

Lemma bind_lift_ok {A B : Type} (a : A) (f : A → M coord B) s :
  bind (lift (Ok a)) f s = f a s.
Proof. unfold bind, lift. by destruct (f a s) as [[r s'] l]. Qed.

Lemma bind_lift_raise {A B : Type} (e : exn) (f : A → M coord B) s :
  bind (lift (Raise e)) f s = (Raise e, s, []).
Proof. reflexivity. Qed.

Lemma keeps_cache_bind {A B : Type} (m : M coord A) (f : A → M coord B) :
  keeps_cache m → (∀ a, keeps_cache (f a)) → keeps_cache (bind m f).
Proof.
  intros Hm Hf s. rewrite state_after_bind.
  destruct (result_of (m s)) as [a|e]; [|apply Hm].
  by rewrite Hf, Hm.
Qed.

Lemma keeps_cache_when (c : bool) (body : M coord unit) :
  keeps_cache body → keeps_cache (when c body).
Proof. by destruct c. Qed.

Lemma keeps_cache_for_each {A : Type} (xs : list A) (body : A → M coord unit) :
  (∀ x, keeps_cache (body x)) → keeps_cache (for_each xs body).
Proof.
  intros Hb. induction xs as [|x xs IH]; [done|].
  simpl. apply keeps_cache_bind; [apply Hb|]. intros _. apply IH.
Qed.

Create HintDb keeps_cache.

Lemma keeps_cache_ret {A : Type} (a : A) : keeps_cache (ret (coord:=coord) a).
Proof. done. Qed.
Lemma keeps_cache_raise {A : Type} (c : string) : keeps_cache (raise (coord:=coord) (A:=A) c).
Proof. done. Qed.
Lemma keeps_cache_emit (e : event coord) : keeps_cache (emit e).
Proof. done. Qed.
Lemma keeps_cache_lift {A : Type} (r : result A) : keeps_cache (lift (coord:=coord) r).
Proof. done. Qed.
Lemma keeps_cache_session_lacks (k : string) : keeps_cache (session_lacks (coord:=coord) k).
Proof. done. Qed.
Lemma keeps_cache_session_get (k : string) : keeps_cache (session_get (coord:=coord) k).
Proof. done. Qed.
Lemma keeps_cache_session_set (k : string) v : keeps_cache (session_set (coord:=coord) k v).
Proof. done. Qed.
Lemma keeps_cache_session_attr (k : string) : keeps_cache (session_attr (coord:=coord) k).
Proof. intros s. unfold session_attr. by destruct (session_state s !! k). Qed.

Hint Resolve keeps_cache_ret keeps_cache_raise keeps_cache_emit keeps_cache_session_lacks
  keeps_cache_session_get keeps_cache_session_set keeps_cache_session_attr
  keeps_cache_when keeps_cache_for_each : keeps_cache.
Hint Extern 2 (keeps_cache (bind _ _)) =>
  apply keeps_cache_bind; [|intros ?] : keeps_cache.

Lemma keeps_cache_button inp (label : string) : keeps_cache (button (coord:=coord) inp label).
Proof. unfold button. auto with keeps_cache. Qed.

Lemma keeps_cache_show_video (h u : string) (a m l : bool) :
  keeps_cache (show_video (coord:=coord) h u a m l).
Proof. unfold show_video. auto with keeps_cache. Qed.

Hint Resolve keeps_cache_button keeps_cache_show_video : keeps_cache.

Lemma keeps_cache_session_state_init : keeps_cache (session_state_init (coord:=coord)).
Proof. unfold session_state_init. auto 10 with keeps_cache. Qed.

Lemma keeps_cache_execute_selected_coa inp :
  keeps_cache (execute_selected_coa (coord:=coord) inp).
Proof.
  unfold execute_selected_coa, coa_action_of.
  destruct (filter _ coa_data); auto 12 with keeps_cache.
Qed.

Lemma keeps_cache_activity_monitoring inp :
  keeps_cache (activity_monitoring (coord:=coord) inp).
Proof.
  unfold activity_monitoring, view_surveillance, countdown.
  auto 20 with keeps_cache.
Qed.

(** *** Reading the table *)

Lemma head_100 {A : Type} (l : list A) : head 100 l = take 100 l.
Proof. reflexivity. Qed.

Lemma load_hit d (path : string) s df :
  cache s !! path = Some df →
  load_drone_anomalies d path s = (Ok df, s, []).
Proof. intros Hc. unfold load_drone_anomalies, cache_data. by rewrite Hc. Qed.

Lemma load_miss d (path : string) s df :
  cache s !! path = None → d path = Ok df →
  load_drone_anomalies d path s
  = (Ok (df_head 100 df),
     {| cache := <[path := df_head 100 df]> (cache s);
        session_state := session_state s |},
     [ReadCsv path]).
Proof.
  intros Hc Hd.
  unfold load_drone_anomalies, cache_data, load_body, bind, read_csv, ret.
  by rewrite Hc, Hd.
Qed.

Lemma load_raise d (path : string) s e :
  cache s !! path = None → d path = Raise e →
  load_drone_anomalies d path s = (Raise e, s, [ReadCsv path]).
Proof.
  intros Hc Hd.
  unfold load_drone_anomalies, cache_data, load_body, bind, read_csv, ret.
  by rewrite Hc, Hd.
Qed.

Lemma load_session d (path : string) s :
  session_state (state_after (load_drone_anomalies d path s)) = session_state s.
Proof.
  destruct (cache s !! path) as [df|] eqn:Hc.
  - by erewrite load_hit.
  - destruct (d path) as [df|e] eqn:Hd.
    + by erewrite load_miss.
    + by erewrite load_raise.
Qed.

Lemma load_cache_bounded d (path : string) s :
  cache_bounded s → cache_bounded (state_after (load_drone_anomalies d path s)).
Proof.
  intros Hb. destruct (cache s !! path) as [df|] eqn:Hc.
  - by erewrite load_hit.
  - destruct (d path) as [df|e] eqn:Hd.
    + erewrite load_miss by done. intros p v. simpl.
      rewrite lookup_insert. case_decide as Hp.
      * intros [= <-]. simpl. rewrite head_100, length_take. lia.
      * apply Hb.
    + by erewrite load_raise.
Qed.

Lemma script_cache d inp s :
  cache (state_after (script d inp s))
  = cache (state_after (load_drone_anomalies d drone_anomaly_path s)).
Proof.
  unfold script. rewrite state_after_bind.
  destruct (result_of _) as [df|e]; [|done].
  assert (keeps_cache (coord:=coord)
            (bind (lift (map_data df)) (λ md,
               bind session_state_init (λ _,
                 bind (emit (PydeckChart (map_deck
                         (build_layer (layer_option inp) md)))) (λ _,
                   bind (execute_selected_coa inp) (λ _,
                     activity_monitoring inp))))))
    as Hk.
  { apply keeps_cache_bind; [done|intros md].
    apply keeps_cache_bind; [apply keeps_cache_session_state_init|intros _].
    apply keeps_cache_bind; [apply keeps_cache_emit|intros _].
    apply keeps_cache_bind; [apply keeps_cache_execute_selected_coa|intros _].
    apply keeps_cache_activity_monitoring. }
  apply Hk.
Qed.

Lemma reachable_cache_bounded s : reachable s → cache_bounded s.
Proof.
  induction 1 as [|s _ IH|d inp s _ IH].
  - intros p v. simpl. by rewrite lookup_empty.
  - exact IH.
  - intros p v. rewrite script_cache. by apply load_cache_bounded.
Qed.

(** C7.  A call of [load_drone_anomalies] that reads the source returns
    its first 100 rows in their order, under the columns of the source: at
    most 100 rows, a prefix of the table.  And whatever a call returns between two runs of the script,
    from the source or from the store, has at most 100 rows. *)
Theorem load_capped_in_order :
  (∀ d (path : string) s df,
     cache s !! path = None → d path = Ok df →
     result_of (load_drone_anomalies d path s) = Ok (df_head 100 df) ∧
     columns (df_head 100 df) = columns df ∧
     rows (df_head 100 df) = take 100 (rows df) ∧
     (length (take 100 (rows df)) ≤ 100)%nat ∧
     take 100 (rows df) `prefix_of` rows df) ∧
  (∀ d (path : string) s df,
     reachable s →
     result_of (load_drone_anomalies d path s) = Ok df →
     (length (rows df) ≤ 100)%nat).
Proof.
  split.
  - intros d path s df Hc Hd. erewrite load_miss by done. split_and!.
    + reflexivity.
    + reflexivity.
    + reflexivity.
    + rewrite length_take. lia.
    + apply prefix_take.
  - intros d path s df Hr Hres.
    apply reachable_cache_bounded in Hr.
    destruct (cache s !! path) as [v|] eqn:Hc.
    + erewrite load_hit in Hres by done. injection Hres as <-. by eapply Hr.
    + destruct (d path) as [v|e] eqn:Hd.
      * erewrite load_miss in Hres by done. injection Hres as <-.
        simpl. rewrite head_100, length_take. lia.
      * by erewrite load_raise in Hres.
Qed.

(** C8.  When a call of [load_drone_anomalies] returns a table, a second
    call with the same path returns the same table, whatever is on the
    disk by then: it reads no file and leaves the state as it is. *)
Theorem load_cached d d' (path : string) s df :
  result_of (load_drone_anomalies d path s) = Ok df →
  let s1 := state_after (load_drone_anomalies d path s) in
  load_drone_anomalies d' path s1 = (Ok df, s1, []) ∧
  files_read (events_of (load_drone_anomalies d' path s1)) = [].
Proof.
  intros Hres s1.
  assert (cache s1 !! path = Some df) as Hc.
  { subst s1. destruct (cache s !! path) as [v|] eqn:Hc.
    - erewrite load_hit in * by done. injection Hres as <-. exact Hc.
    - destruct (d path) as [v|e] eqn:Hd.
      + erewrite load_miss in * by done. injection Hres as <-.
        simpl. apply lookup_insert_eq.
      + by erewrite load_raise in Hres. }
  by rewrite (load_hit d' path s1 df Hc).
Qed.

(** *** The workflow *)

Ltac run_monad :=
  unfold bind, emit, session_set, session_attr, session_get, session_lacks,
    ret, raise, when, assign; simpl.

Lemma activity_monitoring_idle s inp :
  truthy (default VNone (session_state s !! "coa_selected")) = false →
  activity_monitoring inp s = (Ok tt, s, []).
Proof.
  intros Hsel. unfold activity_monitoring, bind at 1, session_get at 1.
  by rewrite Hsel.
Qed.

Lemma activity_monitoring_run s inp :
  truthy (default VNone (session_state s !! "coa_selected")) = true →
  let viewed := bool_decide (clicked inp = Some "View Surveillance Video") in
  let s1 := assign "alert_triggered" (VBool true) s in
  let s2 := if viewed then assign "show_surveillance" (VBool true) s1 else s1 in
  let shown := session_state s2 !! "show_surveillance" in
  activity_monitoring inp s
  = (match shown with Some _ => Ok tt | None => Raise (Exn "AttributeError") end,
     s2,
     Header "Drone Activity Monitoring"
       :: events_of (show_video "Normal Operation" "https://i.imgur.com/h4ghtfH.mp4"
                       true false true s)
       ++ events_of (countdown s)
       ++ [SetState "alert_triggered" (VBool true);
           Warning "⚠️ Suspicious activity detected!";
           Button "View Surveillance Video"]
       ++ (if viewed then [SetState "show_surveillance" (VBool true)] else [])
       ++ Header ""
       :: match shown with
          | Some v =>
              if truthy v
              then events_of (show_video "Suspicious Activity Detected"
                                "https://i.imgur.com/o64VTM8.mp4" true false true s2)
              else []
          | None => []
          end).
Proof.
  intros Hsel viewed s1 s2 shown. subst viewed s1 s2 shown.
  unfold activity_monitoring, bind at 1, session_get at 1.
  rewrite Hsel. unfold when at 1.
  unfold view_surveillance, show_video, countdown, button. run_monad.
  rewrite lookup_insert_eq. simpl.
  destruct (bool_decide (clicked inp = Some "View Surveillance Video")); simpl.
  - rewrite lookup_insert_eq. reflexivity.
  - rewrite lookup_insert_ne by done.
    destruct (session_state s !! "show_surveillance") as [v|]; [|done].
    by destruct (truthy v).
Qed.

Lemma activity_monitoring_state s inp :
  truthy (default VNone (session_state s !! "coa_selected")) = true →
  state_after (activity_monitoring inp s)
  = if bool_decide (clicked inp = Some "View Surveillance Video")
    then assign "show_surveillance" (VBool true)
           (assign "alert_triggered" (VBool true) s)
    else assign "alert_triggered" (VBool true) s.
Proof. intros Hsel. by rewrite activity_monitoring_run. Qed.

Lemma activity_monitoring_events s inp :
  truthy (default VNone (session_state s !! "coa_selected")) = true →
  let l := events_of (activity_monitoring inp s) in
  sleeps l = replicate 10 1 ∧
  writes "alert_triggered" l = [VBool true] ∧
  sleeps (from_write "alert_triggered" l) = [].
Proof.
  intros Hsel. rewrite activity_monitoring_run by done.
  destruct (bool_decide (clicked inp = Some "View Surveillance Video")).
  - simpl. rewrite lookup_insert_eq. split_and!; reflexivity.
  - simpl. rewrite lookup_insert_ne by done.
    destruct (session_state s !! "show_surveillance") as [v|];
      [destruct (truthy v)|]; split_and!; reflexivity.
Qed.

Lemma preserves_bind {A B : Type} (P : state coord → Prop)
    (m : M coord A) (f : A → M coord B) :
  preserves P m → (∀ a, preserves P (f a)) → preserves P (bind m f).
Proof.
  intros Hm Hf s HP. rewrite state_after_bind.
  destruct (result_of (m s)) as [a|e]; [|by apply Hm].
  by apply Hf, Hm.
Qed.

Lemma session_state_init_ok s : result_of (session_state_init s) = Ok tt.
Proof.
  unfold session_state_init. run_monad.
  repeat (case_bool_decide; simpl); reflexivity.
Qed.

Lemma session_state_init_events s :
  sleeps (events_of (session_state_init s)) = [].
Proof.
  unfold session_state_init. run_monad.
  repeat (case_bool_decide; simpl); reflexivity.
Qed.

Lemma session_state_init_lookup s (key : string) v :
  session_state s !! key = Some v →
  session_state (state_after (session_state_init s)) !! key = Some v.
Proof.
  intros Hk. unfold session_state_init. run_monad.
  repeat (case_bool_decide; simpl); simplify_map_eq; done.
Qed.

Lemma session_state_init_preserves :
  preserves (coord:=coord) revealed_after_alert session_state_init.
Proof.
  intros s. unfold revealed_after_alert, session_state_init. run_monad.
  repeat (case_bool_decide; simpl); intros HP Hs; simplify_map_eq; auto;
    specialize (HP Hs); congruence.
Qed.

Lemma execute_selected_coa_clicked s inp :
  clicked inp = Some "Execute Selected COA" →
  execute_selected_coa inp s
  = (match filter (λ r, coa r = chosen_coa inp) coa_data with
     | r :: _ => Ok tt
     | [] => Raise (Exn "IndexError")
     end,
     assign "show_surveillance" (VBool false)
       (assign "alert_triggered" (VBool false)
          (assign "coa_selected" (VStr (chosen_coa inp)) s)),
     [Button "Execute Selected COA";
      SetState "coa_selected" (VStr (chosen_coa inp));
      SetState "alert_triggered" (VBool false);
      SetState "show_surveillance" (VBool false)]
     ++ match filter (λ r, coa r = chosen_coa inp) coa_data with
        | r :: _ =>
            [Success ("Executing " +:+ chosen_coa inp +:+ ": " +:+ coa_action r)]
        | [] => []
        end).
Proof.
  intros Hc. unfold execute_selected_coa, button, coa_action_of. run_monad.
  rewrite bool_decide_true by done. simpl.
  by destruct (filter _ coa_data).
Qed.

Lemma execute_selected_coa_other s inp :
  clicked inp ≠ Some "Execute Selected COA" →
  execute_selected_coa inp s = (Ok tt, s, [Button "Execute Selected COA"]).
Proof.
  intros Hc. unfold execute_selected_coa, button. run_monad.
  by rewrite bool_decide_false.
Qed.

Lemma coa_action_found (id : string) :
  id ∈ coa_options → ∃ r rs, filter (λ r, coa r = id) coa_data = r :: rs.
Proof.
  intros Hin. apply list_elem_of_In in Hin. simpl in Hin.
  destruct Hin as [<-|[<-|[<-|[]]]]; eexists _, _; reflexivity.
Qed.

Lemma execute_selected_coa_preserves inp :
  preserves (coord:=coord) revealed_after_alert (execute_selected_coa inp).
Proof.
  intros s HP.
  destruct (decide (clicked inp = Some "Execute Selected COA")) as [Hc|Hc].
  - rewrite execute_selected_coa_clicked by done.
    unfold revealed_after_alert. simpl. by rewrite lookup_insert_eq.
  - by rewrite execute_selected_coa_other.
Qed.

Lemma activity_monitoring_preserves inp :
  preserves (coord:=coord) revealed_after_alert (activity_monitoring inp).
Proof.
  intros s HP.
  destruct (truthy (default VNone (session_state s !! "coa_selected"))) eqn:Hsel.
  - rewrite activity_monitoring_state by done. unfold revealed_after_alert.
    intros _. case_bool_decide; simpl.
    + rewrite lookup_insert_ne by done. apply lookup_insert_eq.
    + apply lookup_insert_eq.
  - by rewrite activity_monitoring_idle.
Qed.

Lemma load_preserves (d : disk coord) (path : string) :
  preserves revealed_after_alert (load_drone_anomalies d path).
Proof.
  intros s HP. unfold revealed_after_alert. by rewrite load_session.
Qed.

Lemma script_preserves (d : disk coord) inp :
  preserves revealed_after_alert (script d inp).
Proof.
  unfold script.
  apply preserves_bind; [apply load_preserves|intros df].
  apply preserves_bind; [by intros s|intros md].
  apply preserves_bind; [apply session_state_init_preserves|intros _].
  apply preserves_bind; [by intros s|intros _].
  apply preserves_bind; [apply execute_selected_coa_preserves|intros _].
  apply activity_monitoring_preserves.
Qed.

Lemma reachable_revealed_after_alert s : reachable s → revealed_after_alert s.
Proof.
  induction 1 as [|s _ IH|d inp s _ IH].
  - unfold revealed_after_alert, start. simpl. by rewrite lookup_empty.
  - unfold revealed_after_alert, new_session. simpl. by rewrite lookup_empty.
  - by apply script_preserves.
Qed.

Lemma view_surveillance_off s inp v :
  session_state s !! "alert_triggered" = Some v → truthy v = false →
  view_surveillance inp s = (Ok tt, s, []).
Proof.
  intros Ha Hv. unfold view_surveillance, button. run_monad. by rewrite Ha, Hv.
Qed.

Lemma view_surveillance_on s inp v :
  session_state s !! "alert_triggered" = Some v → truthy v = true →
  clicked inp = Some "View Surveillance Video" →
  view_surveillance inp s
  = (Ok tt, assign "show_surveillance" (VBool true) s,
     [Button "View Surveillance Video"; SetState "show_surveillance" (VBool true)]).
Proof.
  intros Ha Hv Hc. unfold view_surveillance, button. run_monad.
  rewrite Ha, Hv. simpl. by rewrite bool_decide_true.
Qed.

Lemma load_sleeps (d : disk coord) (path : string) s :
  sleeps (events_of (load_drone_anomalies d path s)) = [].
Proof.
  destruct (cache s !! path) as [df|] eqn:Hc.
  - by erewrite load_hit.
  - destruct (d path) as [df|e] eqn:Hd.
    + by erewrite load_miss.
    + by erewrite load_raise.
Qed.

Lemma sleeps_app (l1 l2 : list (event coord)) :
  sleeps (l1 ++ l2) = sleeps l1 ++ sleeps l2.
Proof. apply omap_app. Qed.

Lemma coa_options_truthy (id : string) :
  id ∈ coa_options → truthy (VStr id) = true.
Proof.
  intros Hin. apply list_elem_of_In in Hin. simpl in Hin.
  by destruct Hin as [<-|[<-|[<-|[]]]].
Qed.

Lemma run_eta {A : Type} (x : result A * state coord * list (event coord)) :
  x = (result_of x, state_after x, events_of x).
Proof. by destruct x as [[r s] l]. Qed.

Lemma bind_ok {A B : Type} (m : M coord A) (f : A → M coord B) s a s' l :
  m s = (Ok a, s', l) →
  bind m f s = (result_of (f a s'), state_after (f a s'), l ++ events_of (f a s')).
Proof.
  intros Hm. unfold bind. rewrite Hm. by destruct (f a s') as [[r s''] l'].
Qed.

Lemma script_ready (d : disk coord) inp s df :
  result_of (load_drone_anomalies d drone_anomaly_path s) = Ok df →
  "threat_level" ∈ columns df →
  let s1 := state_after (load_drone_anomalies d drone_anomaly_path s) in
  let s2 := state_after (session_state_init s1) in
  let chart := PydeckChart (map_deck (build_layer (layer_option inp)
                                        (with_weights (rows df)))) in
  let rest := bind (execute_selected_coa inp) (λ _, activity_monitoring inp) in
  script d inp s
  = (result_of (rest s2), state_after (rest s2),
     events_of (load_drone_anomalies d drone_anomaly_path s)
     ++ events_of (session_state_init s1) ++ chart :: events_of (rest s2)).
Proof.
  intros Hload Hcol s1 s2 chart rest.
  assert (load_drone_anomalies d drone_anomaly_path s
          = (Ok df, s1, events_of (load_drone_anomalies d drone_anomaly_path s)))
    as Hload'.
  { rewrite (run_eta (load_drone_anomalies d drone_anomaly_path s)) at 1.
    by rewrite Hload. }
  assert (session_state_init s1 = (Ok tt, s2, events_of (session_state_init s1)))
    as Hinit.
  { rewrite (run_eta (session_state_init s1)) at 1.
    by rewrite session_state_init_ok. }
  assert (lift (map_data df) s1 = (Ok (with_weights (rows df)), s1, [])) as Hmap.
  { unfold lift. by rewrite map_data_ok. }
  unfold script.
  rewrite (bind_ok _ _ _ _ _ _ Hload').
  rewrite (bind_ok _ _ _ _ _ _ Hmap).
  rewrite (bind_ok _ _ _ _ _ _ Hinit).
  rewrite (bind_ok (emit _) _ s2 tt s2 [_] eq_refl).
  reflexivity.
Qed.

Lemma script_execute (d : disk coord) inp s df :
  result_of (load_drone_anomalies d drone_anomaly_path s) = Ok df →
  "threat_level" ∈ columns df →
  clicked inp = Some "Execute Selected COA" →
  chosen_coa inp ∈ coa_options →
  let run := script d inp s in
  result_of run = Ok tt ∧
  sleeps (events_of run) = replicate 10 1 ∧
  session_state (state_after run) !! "coa_selected" = Some (VStr (chosen_coa inp)) ∧
  session_state (state_after run) !! "alert_triggered" = Some (VBool true) ∧
  session_state (state_after run) !! "show_surveillance" = Some (VBool false).
Proof.
  intros Hload Hcol Hc Hin run. subst run.
  rewrite (script_ready d inp s df Hload Hcol).
  set (s1 := state_after (load_drone_anomalies d drone_anomaly_path s)).
  set (s2 := state_after (session_state_init s1)).
  set (s3 := assign "show_surveillance" (VBool false)
               (assign "alert_triggered" (VBool false)
                  (assign "coa_selected" (VStr (chosen_coa inp)) s2))).
  destruct (coa_action_found _ Hin) as (r & rs & Hfilter).
  assert (truthy (default VNone (session_state s3 !! "coa_selected")) = true) as Hsel.
  { subst s3. simpl. rewrite !lookup_insert_ne by done. rewrite lookup_insert_eq.
    by apply coa_options_truthy. }
  assert (activity_monitoring inp s3
          = (Ok tt, assign "alert_triggered" (VBool true) s3,
             events_of (activity_monitoring inp s3))) as Hmon.
  { rewrite activity_monitoring_run by done.
    rewrite Hc, bool_decide_false by done. subst s3. simpl.
    rewrite lookup_insert_ne by done. by rewrite lookup_insert_eq. }
  assert (execute_selected_coa inp s2
          = (Ok tt, s3, events_of (execute_selected_coa inp s2))) as Hexec.
  { rewrite execute_selected_coa_clicked by done. by rewrite Hfilter. }
  rewrite (bind_ok _ _ _ _ _ _ Hexec), Hmon.
  pose proof (load_sleeps d drone_anomaly_path s) as Hl0.
  pose proof (session_state_init_events s1) as Hl1.
  pose proof (activity_monitoring_events s3 inp Hsel) as (Hl3 & _).
  assert (sleeps (events_of (execute_selected_coa inp s2)) = []) as Hl2.
  { rewrite execute_selected_coa_clicked by done. by rewrite Hfilter. }
  set (l0 := events_of (load_drone_anomalies d drone_anomaly_path s)) in *.
  set (l1 := events_of (session_state_init s1)) in *.
  set (l2 := events_of (execute_selected_coa inp s2)) in *.
  set (l3 := events_of (activity_monitoring inp s3)) in *.
  clearbody l0 l1 l2 l3.
  unfold result_of, state_after, events_of. simpl.
  split_and!.
  - done.
  - rewrite !sleeps_app, Hl0, Hl1. simpl.
    change (sleeps (PydeckChart ?d :: ?l)) with (sleeps l).
    by rewrite sleeps_app, Hl2, Hl3.
  - subst s3. simpl. rewrite !lookup_insert_ne by done. apply lookup_insert_eq.
  - apply lookup_insert_eq.
  - subst s3. simpl. rewrite !lookup_insert_ne by done. apply lookup_insert_eq.
Qed.

(** *** The encodings, both ways *)

Lemma weights_lookup_some (k : string) (z : Z) :
  threat_level_weights !! k = Some z →
  (k = "High" ∧ z = 3) ∨ (k = "Medium" ∧ z = 2) ∨ (k = "Low" ∧ z = 1).
Proof.
  unfold threat_level_weights. intros H.
  destruct (decide (k = "High")) as [->|Hh].
  { rewrite lookup_insert_eq in H. injection H as <-. auto. }
  rewrite lookup_insert_ne in H by done.
  destruct (decide (k = "Medium")) as [->|Hm].
  { rewrite lookup_insert_eq in H. injection H as <-. auto. }
  rewrite lookup_insert_ne in H by done.
  destruct (decide (k = "Low")) as [->|Hl].
  { rewrite lookup_insert_eq in H. injection H as <-. auto. }
  rewrite lookup_insert_ne in H by done. by rewrite lookup_empty in H.
Qed.

Lemma series_map_num level (z : Z) :
  series_map threat_level_weights level = Num z →
  (level = CStr "High" ∧ z = 3) ∨ (level = CStr "Medium" ∧ z = 2)
  ∨ (level = CStr "Low" ∧ z = 1).
Proof.
  destruct level as [k|]; [|done]. simpl.
  destruct (threat_level_weights !! k) as [z'|] eqn:Hk; [|done].
  intros [= ->]. apply weights_lookup_some in Hk.
  destruct Hk as [[-> ->]|[[-> ->]|[-> ->]]]; auto.
Qed.

(** X1.  The weight column tells the threat level back: the weight of a
    record is NaN exactly when its threat level is none of High, Medium and
    Low, and two records with the same number as weight have the same threat
    level. *)
Theorem weight_decodes_level (r1 r2 : row coord) :
  (series_map threat_level_weights (threat_level r1) = NaN
   ↔ ¬ recognized (threat_level r1)) ∧
  (∀ z, series_map threat_level_weights (threat_level r1) = Num z →
        series_map threat_level_weights (threat_level r2) = Num z →
        threat_level r1 = threat_level r2).
Proof.
  split; [split|].
  - intros Hn [H|[H|H]]; rewrite H in Hn; discriminate Hn.
  - apply series_map_unrecognized.
  - intros z H1 H2. apply series_map_num in H1, H2.
    destruct H1 as [[-> ->]|[[-> ->]|[-> ->]]];
      destruct H2 as [[-> H]|[[-> H]|[-> H]]]; done.
Qed.

Lemma cell_eq_true level (k : string) : cell_eq level k = true ↔ level = CStr k.
Proof.
  destruct level as [t|]; simpl; [|done].
  rewrite String.eqb_eq. split; [by intros ->|by intros [= ->]].
Qed.

(** X2.  The colour tells High and Medium apart from everything else and
    nothing more: a point is red exactly for "High", orange exactly for
    "Medium", and green exactly for every other cell, Low, an unknown string
    or NaN. *)
Theorem color_decodes_level level :
  (get_color level = red ↔ level = CStr "High") ∧
  (get_color level = orange ↔ level = CStr "Medium") ∧
  (get_color level = green ↔ level ≠ CStr "High" ∧ level ≠ CStr "Medium").
Proof.
  unfold get_color.
  destruct (cell_eq level "High") eqn:Hh.
  { apply cell_eq_true in Hh as ->. split_and!; split; try done.
    intros [H _]. done. }
  destruct (cell_eq level "Medium") eqn:Hm.
  { apply cell_eq_true in Hm as ->. split_and!; split; try done.
    intros [_ H]. done. }
  assert (level ≠ CStr "High") as Hnh.
  { intros H. apply cell_eq_true in H. congruence. }
  assert (level ≠ CStr "Medium") as Hnm.
  { intros H. apply cell_eq_true in H. congruence. }
  split_and!; split; done.
Qed.

(** *** The two modes *)

Lemma layer_modes (layer_option : string) (md : list (map_row coord)) :
  (layer_type (build_layer layer_option md) = "HeatmapLayer"
   ↔ layer_option = "Heatmap") ∧
  (layer_type (build_layer layer_option md) = "ScatterplotLayer"
   ↔ layer_option ≠ "Heatmap") ∧
  data (build_layer layer_option md) = md ∧
  prop "get_position" (build_layer layer_option md)
  = Some (KStr "@@=[longitude, latitude]") ∧
  (is_pickable (build_layer layer_option md) = true ↔ layer_option ≠ "Heatmap").
Proof.
  unfold build_layer.
  destruct (String.eqb layer_option "Heatmap") eqn:Heq.
  - apply String.eqb_eq in Heq as ->. split_and!; try done; split; done.
  - apply String.eqb_neq in Heq. split_and!; try done; split; done.
Qed.


(** *** Reading the table: bounds and failure *)

(** X3.  A call of [load_drone_anomalies] that reads a table of at most 100
    rows returns the whole table; for a longer table it returns exactly 100
    rows and so not the table; in both cases the store then holds the rows
    returned, not the table read. *)
Theorem load_whole_or_100 d (path : string) s df :
  cache s !! path = None → d path = Ok df →
  ((length (rows df) ≤ 100)%nat →
   result_of (load_drone_anomalies d path s) = Ok df) ∧
  ((100 < length (rows df))%nat →
   ∃ df', result_of (load_drone_anomalies d path s) = Ok df' ∧
          length (rows df') = 100%nat ∧ columns df' = columns df ∧ df' ≠ df) ∧
  cache (state_after (load_drone_anomalies d path s)) !! path
  = Some (df_head 100 df).
Proof.
  intros Hc Hd. rewrite (load_miss d path s df Hc Hd).
  unfold result_of, state_after. simpl. split_and!.
  - intros Hlen. destruct df as [cols rs]. unfold df_head. simpl in *.
    by rewrite head_100, take_ge.
  - intros Hlen. exists (df_head 100 df). split_and!; [done| |done|].
    + simpl. rewrite head_100, length_take. lia.
    + intros Heq. apply (f_equal (λ x, length (rows x))) in Heq. simpl in Heq.
      rewrite head_100, length_take in Heq. lia.
  - apply lookup_insert_eq.
Qed.

(** X4.  When the table is not in the store and [pd.read_csv] raises, the
    run stops with that exception right after the read: nothing is drawn,
    the session state and the store are as before, so the next run reads
    again. *)
Theorem script_load_failure d inp s e :
  cache s !! drone_anomaly_path = None → d drone_anomaly_path = Raise e →
  script d inp s = (Raise e, s, [ReadCsv drone_anomaly_path]).
Proof.
  intros Hc Hd. unfold script, bind.
  by rewrite (load_raise d _ s e Hc Hd).
Qed.

Lemma files_read_app (l1 l2 : list (event coord)) :
  files_read (l1 ++ l2) = files_read l1 ++ files_read l2.
Proof. apply omap_app. Qed.

Lemma session_state_init_reads s :
  files_read (events_of (session_state_init s)) = [].
Proof.
  unfold session_state_init. run_monad.
  repeat (case_bool_decide; simpl); reflexivity.
Qed.

Lemma execute_selected_coa_reads s inp :
  files_read (events_of (execute_selected_coa inp s)) = [].
Proof.
  destruct (decide (clicked inp = Some "Execute Selected COA")) as [Hc|Hc].
  - rewrite execute_selected_coa_clicked by done.
    by destruct (filter _ coa_data).
  - by rewrite execute_selected_coa_other.
Qed.

Lemma activity_monitoring_reads s inp :
  files_read (events_of (activity_monitoring inp s)) = [].
Proof.
  destruct (truthy (default VNone (session_state s !! "coa_selected"))) eqn:Hsel.
  - rewrite activity_monitoring_run by done.
    destruct (bool_decide (clicked inp = Some "View Surveillance Video")); simpl.
    + by rewrite lookup_insert_eq.
    + rewrite lookup_insert_ne by done.
      destruct (session_state s !! "show_surveillance") as [v|];
        [destruct (truthy v)|]; reflexivity.
  - by rewrite activity_monitoring_idle.
Qed.

(** X5.  Once the table is in the store a run does not depend on the disk:
    for any two disks the run is the same, log and all; it reads no file
    and leaves the store as it is. *)
Theorem table_stable_once_cached d d' inp s df :
  cache s !! drone_anomaly_path = Some df →
  script d inp s = script d' inp s ∧
  files_read (events_of (script d inp s)) = [] ∧
  cache (state_after (script d inp s)) = cache s.
Proof.
  intros Hc. split_and!.
  - unfold script, bind. by rewrite !(load_hit _ _ s df Hc).
  - unfold script. rewrite events_of_bind, (load_hit d _ s df Hc).
    unfold result_of, state_after, events_of at 1. simpl.
    destruct (map_data df) as [md|e];
      [rewrite bind_lift_ok|by rewrite bind_lift_raise].
    rewrite events_of_bind, session_state_init_ok, files_read_app,
      session_state_init_reads. simpl.
    rewrite events_of_bind. simpl.
    rewrite events_of_bind.
    destruct (result_of (execute_selected_coa _ _)).
    + by rewrite files_read_app, execute_selected_coa_reads,
        activity_monitoring_reads.
    + apply execute_selected_coa_reads.
  - rewrite script_cache. by rewrite (load_hit d _ s df Hc).
Qed.


(** *** The session state at the start of a run *)

Lemma session_state_init_run s :
  session_state_init s
  = (Ok tt,
     {| cache := cache s;
        session_state :=
          let m1 := match session_state s !! "alert_triggered" with
                    | Some _ => session_state s
                    | None => <["alert_triggered" := VBool false]> (session_state s)
                    end in
          let m2 := match session_state s !! "show_surveillance" with
                    | Some _ => m1
                    | None => <["show_surveillance" := VBool false]> m1
                    end in
          match session_state s !! "coa_selected" with
          | Some _ => m2
          | None => <["coa_selected" := VNone]> m2
          end |},
     (match session_state s !! "alert_triggered" with
      | Some _ => [] | None => [SetState "alert_triggered" (VBool false)] end)
     ++ (match session_state s !! "show_surveillance" with
         | Some _ => [] | None => [SetState "show_surveillance" (VBool false)] end)
     ++ (match session_state s !! "coa_selected" with
         | Some _ => [] | None => [SetState "coa_selected" VNone] end)).
Proof.
  unfold session_state_init. run_monad.
  destruct (session_state s !! "alert_triggered") as [a|] eqn:Ha; simpl.
  all: rewrite ?lookup_insert_ne by done.
  all: destruct (session_state s !! "show_surveillance") as [b|] eqn:Hb; simpl.
  all: rewrite ?lookup_insert_ne by done.
  all: destruct (session_state s !! "coa_selected") as [c|] eqn:Hc; simpl.
  all: by destruct s.
Qed.

(** X6.  The initialisation of the session state, lines 45-52, always
    returns; it keeps the value of every key that is there, gives the three
    workflow keys their defaults (False, False, None) where they are
    missing, touches no other key, and a second initialisation changes
    nothing. *)
Theorem session_state_init_defaults s :
  let s' := state_after (session_state_init s) in
  result_of (session_state_init s) = Ok tt ∧
  (∀ (key : string) v,
     session_state s !! key = Some v → session_state s' !! key = Some v) ∧
  session_state s' !! "alert_triggered"
  = Some (default (VBool false) (session_state s !! "alert_triggered")) ∧
  session_state s' !! "show_surveillance"
  = Some (default (VBool false) (session_state s !! "show_surveillance")) ∧
  session_state s' !! "coa_selected"
  = Some (default VNone (session_state s !! "coa_selected")) ∧
  (∀ key : string, key ∉ workflow_keys →
     session_state s' !! key = session_state s !! key) ∧
  session_state_init s' = (Ok tt, s', []).
Proof.
  intros s'. subst s'. split_and!.
  - apply session_state_init_ok.
  - intros key v. apply session_state_init_lookup.
  - rewrite session_state_init_run. unfold state_after. simpl.
    destruct (session_state s !! "alert_triggered") as [a|] eqn:Ha;
      destruct (session_state s !! "show_surveillance") as [b|] eqn:Hb;
      destruct (session_state s !! "coa_selected") as [c|] eqn:Hc;
      by simplify_map_eq.
  - rewrite session_state_init_run. unfold state_after. simpl.
    destruct (session_state s !! "alert_triggered") as [a|] eqn:Ha;
      destruct (session_state s !! "show_surveillance") as [b|] eqn:Hb;
      destruct (session_state s !! "coa_selected") as [c|] eqn:Hc;
      by simplify_map_eq.
  - rewrite session_state_init_run. unfold state_after. simpl.
    destruct (session_state s !! "alert_triggered") as [a|] eqn:Ha;
      destruct (session_state s !! "show_surveillance") as [b|] eqn:Hb;
      destruct (session_state s !! "coa_selected") as [c|] eqn:Hc;
      by simplify_map_eq.
  - intros key Hk.
    assert (key ≠ "alert_triggered" ∧ key ≠ "show_surveillance"
            ∧ key ≠ "coa_selected") as (H1 & H2 & H3).
    { unfold workflow_keys in Hk. set_solver. }
    rewrite session_state_init_run. unfold state_after. simpl.
    destruct (session_state s !! "alert_triggered") as [a|] eqn:Ha;
      destruct (session_state s !! "show_surveillance") as [b|] eqn:Hb;
      destruct (session_state s !! "coa_selected") as [c|] eqn:Hc;
      by simplify_map_eq.
  - rewrite (session_state_init_run (state_after _)).
    rewrite session_state_init_run. unfold state_after. simpl.
    destruct (session_state s !! "alert_triggered") as [a|] eqn:Ha;
      destruct (session_state s !! "show_surveillance") as [b|] eqn:Hb;
      destruct (session_state s !! "coa_selected") as [c|] eqn:Hc;
      by simplify_map_eq.
Qed.


(** *** A run without "Execute Selected COA" *)

Lemma script_no_execute d inp s df :
  result_of (load_drone_anomalies d drone_anomaly_path s) = Ok df →
  "threat_level" ∈ columns df →
  clicked inp ≠ Some "Execute Selected COA" →
  let s1 := state_after (load_drone_anomalies d drone_anomaly_path s) in
  let s2 := state_after (session_state_init s1) in
  script d inp s
  = (result_of (activity_monitoring inp s2),
     state_after (activity_monitoring inp s2),
     events_of (load_drone_anomalies d drone_anomaly_path s)
     ++ events_of (session_state_init s1)
     ++ PydeckChart (map_deck (build_layer (layer_option inp)
                                 (with_weights (rows df))))
     :: Button "Execute Selected COA"
     :: events_of (activity_monitoring inp s2)).
Proof.
  intros Hload Hcol Hc s1 s2.
  rewrite (script_ready d inp s df Hload Hcol). fold s1 s2.
  by rewrite (bind_ok _ _ _ _ _ _ (execute_selected_coa_other s2 inp Hc)).
Qed.

Lemma session_state_init_sleeps_videos s :
  sleeps (events_of (session_state_init s)) = [] ∧
  videos (events_of (session_state_init s)) = [].
Proof.
  rewrite session_state_init_run. unfold events_of. simpl.
  by destruct (session_state s !! "alert_triggered"),
    (session_state s !! "show_surveillance"), (session_state s !! "coa_selected").
Qed.

Lemma load_videos d (path : string) s :
  videos (events_of (load_drone_anomalies d path s)) = [].
Proof.
  destruct (cache s !! path) as [df|] eqn:Hc.
  - by erewrite load_hit.
  - destruct (d path) as [df|e] eqn:Hd.
    + by erewrite load_miss.
    + by erewrite load_raise.
Qed.

Lemma videos_app (l1 l2 : list (event coord)) :
  videos (l1 ++ l2) = videos l1 ++ videos l2.
Proof. apply omap_app. Qed.

Lemma init_coa_selected s :
  default VNone
    (session_state (state_after (session_state_init s)) !! "coa_selected")
  = default VNone (session_state s !! "coa_selected").
Proof.
  destruct (session_state_init_defaults s) as (_ & _ & _ & _ & -> & _).
  reflexivity.
Qed.

(** X7.  While a COA is selected, every run of the script that gets its
    table, with a [threat_level] column, and is not started by "Execute
    Selected COA", a click on "View Surveillance Video" or a change of a
    radio button, goes through the countdown again: it
    sleeps ten times one second and ends with the alert on.  It plays the
    normal-operation video, and the surveillance video as well exactly when
    the view button was clicked or [show_surveillance] was already true. *)
Theorem rerun_repeats_countdown d inp s df :
  result_of (load_drone_anomalies d drone_anomaly_path s) = Ok df →
  "threat_level" ∈ columns df →
  clicked inp ≠ Some "Execute Selected COA" →
  truthy (default VNone (session_state s !! "coa_selected")) = true →
  let run := script d inp s in
  result_of run = Ok tt ∧
  sleeps (events_of run) = replicate 10 1 ∧
  session_state (state_after run) !! "alert_triggered" = Some (VBool true) ∧
  videos (events_of run)
  = "https://i.imgur.com/h4ghtfH.mp4"
    :: (if bool_decide (clicked inp = Some "View Surveillance Video")
           || truthy (default (VBool false) (session_state s !! "show_surveillance"))
        then ["https://i.imgur.com/o64VTM8.mp4"] else []).
Proof.
  intros Hload Hcol Hc Hsel run. subst run.
  rewrite (script_no_execute d inp s df Hload Hcol Hc).
  set (s1 := state_after (load_drone_anomalies d drone_anomaly_path s)).
  set (s2 := state_after (session_state_init s1)).
  assert (session_state s1 = session_state s) as Hs1 by apply load_session.
  assert (truthy (default VNone (session_state s2 !! "coa_selected")) = true)
    as Hsel2.
  { subst s2. by rewrite init_coa_selected, Hs1. }
  assert (session_state s2 !! "show_surveillance"
          = Some (default (VBool false) (session_state s !! "show_surveillance")))
    as Hshow.
  { subst s2. destruct (session_state_init_defaults s1) as (_ & _ & _ & -> & _).
    by rewrite Hs1. }
  pose proof (load_sleeps d drone_anomaly_path s) as Hl0s.
  pose proof (load_videos d drone_anomaly_path s) as Hl0v.
  destruct (session_state_init_sleeps_videos s1) as [Hl1s Hl1v].
  set (l0 := events_of (load_drone_anomalies d drone_anomaly_path s)) in *.
  set (l1 := events_of (session_state_init s1)) in *.
  clearbody l0 l1.
  rewrite (activity_monitoring_run s2 inp Hsel2).
  unfold result_of, state_after, events_of. simpl.
  rewrite !sleeps_app, !videos_app, Hl0s, Hl0v, Hl1s, Hl1v. simpl.
  destruct (bool_decide (clicked inp = Some "View Surveillance Video")); simpl.
  - rewrite lookup_insert_eq. split_and!; try reflexivity.
    rewrite lookup_insert_ne by done. apply lookup_insert_eq.
  - rewrite lookup_insert_ne by done. rewrite Hshow.
    destruct (truthy (default (VBool false)
                        (session_state s !! "show_surveillance")));
      (split_and!; [reflexivity|reflexivity|apply lookup_insert_eq|reflexivity]).
Qed.

(** X8.  While no COA is selected, a run that gets its table, with a
    [threat_level] column, and is not started by "Execute Selected COA"
    returns without sleeping and without a video; it never
    assigns True to [alert_triggered], and its only effect on the session
    state is the initialisation of lines 45-52. *)
Theorem idle_run_is_quiet d inp s df :
  result_of (load_drone_anomalies d drone_anomaly_path s) = Ok df →
  "threat_level" ∈ columns df →
  clicked inp ≠ Some "Execute Selected COA" →
  truthy (default VNone (session_state s !! "coa_selected")) = false →
  let run := script d inp s in
  result_of run = Ok tt ∧
  sleeps (events_of run) = [] ∧
  videos (events_of run) = [] ∧
  writes "alert_triggered" (events_of run)
  = match session_state s !! "alert_triggered" with
    | Some _ => []
    | None => [VBool false]
    end ∧
  session_state (state_after run)
  = session_state (state_after (session_state_init s)).
Proof.
  intros Hload Hcol Hc Hsel run. subst run.
  rewrite (script_no_execute d inp s df Hload Hcol Hc).
  set (s1 := state_after (load_drone_anomalies d drone_anomaly_path s)).
  set (s2 := state_after (session_state_init s1)).
  assert (session_state s1 = session_state s) as Hs1 by apply load_session.
  assert (truthy (default VNone (session_state s2 !! "coa_selected")) = false)
    as Hsel2.
  { subst s2. by rewrite init_coa_selected, Hs1. }
  pose proof (load_sleeps d drone_anomaly_path s) as Hl0s.
  pose proof (load_videos d drone_anomaly_path s) as Hl0v.
  assert (writes "alert_triggered"
            (events_of (load_drone_anomalies d drone_anomaly_path s)) = [])
    as Hl0w.
  { destruct (cache s !! drone_anomaly_path) as [v|] eqn:Hcache.
    - by erewrite load_hit.
    - destruct (d drone_anomaly_path) as [v|e] eqn:Hd.
      + by erewrite load_miss.
      + by erewrite load_raise. }
  destruct (session_state_init_sleeps_videos s1) as [Hl1s Hl1v].
  assert (writes "alert_triggered" (events_of (session_state_init s1))
          = match session_state s !! "alert_triggered" with
            | Some _ => []
            | None => [VBool false]
            end)
    as Hl1w.
  { rewrite (session_state_init_run s1). unfold events_of. simpl. rewrite Hs1.
    by destruct (session_state s !! "alert_triggered"),
      (session_state s !! "show_surveillance"),
      (session_state s !! "coa_selected"). }
  set (l0 := events_of (load_drone_anomalies d drone_anomaly_path s)) in *.
  set (l1 := events_of (session_state_init s1)) in *.
  clearbody l0 l1.
  rewrite (activity_monitoring_idle s2 inp Hsel2).
  unfold result_of, state_after, events_of. simpl.
  rewrite !sleeps_app, !videos_app, Hl0s, Hl0v, Hl1s, Hl1v. simpl.
  split_and!; try reflexivity.
  - unfold writes in *. rewrite !omap_app, Hl0w, Hl1w. simpl.
    by rewrite app_nil_r.
  - subst s2. rewrite (session_state_init_run s1), (session_state_init_run s).
    unfold state_after. simpl. by rewrite Hs1.
Qed.


Lemma activity_monitoring_ok s inp :
  is_Some (session_state s !! "show_surveillance") →
  result_of (activity_monitoring inp s) = Ok tt.
Proof.
  intros [v Hv].
  destruct (truthy (default VNone (session_state s !! "coa_selected"))) eqn:Hsel.
  - rewrite activity_monitoring_run by done. unfold result_of. simpl.
    case_bool_decide; simpl.
    + by rewrite lookup_insert_eq.
    + rewrite lookup_insert_ne by done. by rewrite Hv.
  - by rewrite activity_monitoring_idle.
Qed.

(** X9.  A run that gets its table, with a [threat_level] column,
    returns: no KeyError, no AttributeError and no IndexError, from any
    session state, as long as a COA executed in the run is one of the
    radio button's. *)
Theorem script_completes d inp s df :
  result_of (load_drone_anomalies d drone_anomaly_path s) = Ok df →
  "threat_level" ∈ columns df →
  (clicked inp = Some "Execute Selected COA" → chosen_coa inp ∈ coa_options) →
  result_of (script d inp s) = Ok tt.
Proof.
  intros Hload Hcol Hin.
  destruct (decide (clicked inp = Some "Execute Selected COA")) as [Hc|Hc].
  { by destruct (script_execute d inp s df Hload Hcol Hc (Hin Hc)) as [? _]. }
  rewrite (script_no_execute d inp s df Hload Hcol Hc). unfold result_of at 1. simpl.
  apply activity_monitoring_ok.
  set (s1 := state_after (load_drone_anomalies d drone_anomaly_path s)).
  rewrite (session_state_init_run s1). unfold state_after. simpl.
  destruct (session_state s1 !! "alert_triggered"),
    (session_state s1 !! "show_surveillance") eqn:Hs,
    (session_state s1 !! "coa_selected"); simplify_map_eq; eauto.
Qed.

(** *** What a run keeps *)

Lemma activity_monitoring_lookup s inp (key : string) :
  key ≠ "alert_triggered" → key ≠ "show_surveillance" →
  session_state (state_after (activity_monitoring inp s)) !! key
  = session_state s !! key.
Proof.
  intros Ha Hs.
  destruct (truthy (default VNone (session_state s !! "coa_selected"))) eqn:Hsel.
  - rewrite activity_monitoring_state by done.
    case_bool_decide; simpl; by rewrite !lookup_insert_ne.
  - by rewrite activity_monitoring_idle.
Qed.

(** X10.  A run that is not started by "Execute Selected COA" never
    deselects the COA, never switches the alert off and never hides the
    surveillance video, whether it returns or raises. *)
Theorem only_execute_resets d inp s :
  clicked inp ≠ Some "Execute Selected COA" →
  let s' := state_after (script d inp s) in
  (∀ v, session_state s !! "coa_selected" = Some v →
        session_state s' !! "coa_selected" = Some v) ∧
  (session_state s !! "alert_triggered" = Some (VBool true) →
   session_state s' !! "alert_triggered" = Some (VBool true)) ∧
  (session_state s !! "show_surveillance" = Some (VBool true) →
   session_state s' !! "show_surveillance" = Some (VBool true)).
Proof.
  intros Hc s'. subst s'.
  assert (∀ P : state coord → Prop,
            (∀ s0, P s0 → P (state_after (session_state_init s0))) →
            (∀ s0, P s0 → P (state_after (activity_monitoring inp s0))) →
            (∀ s0 s1, session_state s0 = session_state s1 → P s0 → P s1) →
            preserves P (script d inp)) as Hpres.
  { intros P Hinit Hmon Hext. unfold script.
    apply preserves_bind; [|intros df].
    { intros s0. apply Hext. symmetry. apply load_session. }
    apply preserves_bind; [by intros s0|intros md].
    apply preserves_bind; [exact Hinit|intros _].
    apply preserves_bind; [by intros s0|intros _].
    apply preserves_bind; [|intros _; exact Hmon].
    intros s0 HP. by rewrite execute_selected_coa_other. }
  split_and!.
  - intros v. apply (Hpres (λ s0, session_state s0 !! "coa_selected" = Some v)).
    + intros s0. apply session_state_init_lookup.
    + intros s0 H0. by rewrite activity_monitoring_lookup.
    + by intros s0 s1 ->.
  - apply (Hpres (λ s0, session_state s0 !! "alert_triggered" = Some (VBool true))).
    + intros s0. apply session_state_init_lookup.
    + intros s0 H0.
      destruct (truthy (default VNone (session_state s0 !! "coa_selected")))
        eqn:Hsel.
      * rewrite activity_monitoring_state by done.
        case_bool_decide; simpl.
        -- rewrite lookup_insert_ne by done. apply lookup_insert_eq.
        -- apply lookup_insert_eq.
      * by rewrite activity_monitoring_idle.
    + by intros s0 s1 ->.
  - apply (Hpres (λ s0, session_state s0 !! "show_surveillance" = Some (VBool true))).
    + intros s0. apply session_state_init_lookup.
    + intros s0 H0.
      destruct (truthy (default VNone (session_state s0 !! "coa_selected")))
        eqn:Hsel.
      * rewrite activity_monitoring_state by done.
        case_bool_decide; simpl.
        -- apply lookup_insert_eq.
        -- by rewrite lookup_insert_ne.
      * by rewrite activity_monitoring_idle.
    + by intros s0 s1 ->.
Qed.

Lemma script_preserves_alert_after_selection d inp :
  preserves (coord:=coord) alert_after_selection (script d inp).
Proof.
  unfold script.
  apply preserves_bind; [|intros df].
  { intros s HP. unfold alert_after_selection. by rewrite load_session. }
  apply preserves_bind; [by intros s|intros md].
  apply preserves_bind; [|intros _].
  { intros s HP. unfold alert_after_selection.
    destruct (session_state_init_defaults s) as (_ & _ & -> & _ & -> & _).
    intros Ha. simpl.
    destruct (session_state s !! "alert_triggered") as [a|] eqn:Hal; [|done].
    simpl in Ha. injection Ha as ->. by apply HP. }
  apply preserves_bind; [by intros s|intros _].
  apply preserves_bind; [|intros _].
  { intros s HP.
    destruct (decide (clicked inp = Some "Execute Selected COA")) as [Hc|Hc].
    - rewrite execute_selected_coa_clicked by done.
      unfold alert_after_selection, state_after. simpl.
      rewrite lookup_insert_ne by done. by rewrite lookup_insert_eq.
    - by rewrite execute_selected_coa_other. }
  intros s HP.
  destruct (truthy (default VNone (session_state s !! "coa_selected"))) eqn:Hsel.
  - unfold alert_after_selection. intros _.
    by rewrite activity_monitoring_lookup.
  - by rewrite activity_monitoring_idle.
Qed.

Lemma reachable_alert_after_selection s : reachable s → alert_after_selection s.
Proof.
  induction 1 as [|s _ IH|d inp s _ IH].
  - unfold alert_after_selection, start. simpl. by rewrite lookup_empty.
  - unfold alert_after_selection, new_session. simpl. by rewrite lookup_empty.
  - by apply script_preserves_alert_after_selection.
Qed.

(** X11.  Between two runs of the script the alert is on only while a COA
    is selected, and so is the surveillance video. *)
Theorem alert_only_with_selection s :
  reachable s →
  alert_after_selection s ∧
  (session_state s !! "show_surveillance" = Some (VBool true) →
   truthy (default VNone (session_state s !! "coa_selected")) = true).
Proof.
  intros Hr.
  assert (alert_after_selection s) as Ha
    by by apply reachable_alert_after_selection.
  split; [exact Ha|].
  intros Hs. apply Ha. by apply reachable_revealed_after_alert.
Qed.


Lemma load_capped_bound d (path : string) s df :
  reachable s →
  result_of (load_drone_anomalies d path s) = Ok df →
  (length (rows df) ≤ 100)%nat.
Proof.
  intros Hr Hres.
  apply reachable_cache_bounded in Hr.
  destruct (cache s !! path) as [v|] eqn:Hc.
  - erewrite load_hit in Hres by done. injection Hres as <-. by eapply Hr.
  - destruct (d path) as [v|e] eqn:Hd.
    + erewrite load_miss in Hres by done. injection Hres as <-.
      simpl. rewrite head_100, length_take. lia.
    + by erewrite load_raise in Hres.
Qed.

(** *** The map of a run *)

Lemma load_charts d (path : string) s :
  charts (events_of (load_drone_anomalies d path s)) = [].
Proof.
  destruct (cache s !! path) as [df|] eqn:Hc.
  - by erewrite load_hit.
  - destruct (d path) as [df|e] eqn:Hd.
    + by erewrite load_miss.
    + by erewrite load_raise.
Qed.

Lemma session_state_init_charts s :
  charts (events_of (session_state_init s)) = [].
Proof.
  rewrite session_state_init_run. unfold events_of. simpl.
  by destruct (session_state s !! "alert_triggered"),
    (session_state s !! "show_surveillance"), (session_state s !! "coa_selected").
Qed.

Lemma execute_selected_coa_charts s inp :
  charts (events_of (execute_selected_coa inp s)) = [].
Proof.
  destruct (decide (clicked inp = Some "Execute Selected COA")) as [Hc|Hc].
  - rewrite execute_selected_coa_clicked by done.
    by destruct (filter _ coa_data).
  - by rewrite execute_selected_coa_other.
Qed.

Lemma activity_monitoring_charts s inp :
  charts (events_of (activity_monitoring inp s)) = [].
Proof.
  destruct (truthy (default VNone (session_state s !! "coa_selected"))) eqn:Hsel.
  - rewrite activity_monitoring_run by done.
    destruct (bool_decide (clicked inp = Some "View Surveillance Video")); simpl.
    + by rewrite lookup_insert_eq.
    + rewrite lookup_insert_ne by done.
      destruct (session_state s !! "show_surveillance") as [v|];
        [destruct (truthy v)|]; reflexivity.
  - by rewrite activity_monitoring_idle.
Qed.

Lemma charts_app (l1 l2 : list (event coord)) :
  charts (l1 ++ l2) = charts l1 ++ charts l2.
Proof. apply omap_app. Qed.

Lemma script_charts d inp s df :
  result_of (load_drone_anomalies d drone_anomaly_path s) = Ok df →
  "threat_level" ∈ columns df →
  charts (events_of (script d inp s))
  = [map_deck (build_layer (layer_option inp) (with_weights (rows df)))].
Proof.
  intros Hload Hcol. rewrite (script_ready d inp s df Hload Hcol).
  unfold events_of at 1. simpl.
  rewrite !charts_app, load_charts, session_state_init_charts. simpl.
  change (charts (PydeckChart ?d :: ?l)) with (d :: charts l).
  f_equal. rewrite events_of_bind.
  destruct (result_of (execute_selected_coa _ _)).
  - by rewrite charts_app, execute_selected_coa_charts,
      activity_monitoring_charts.
  - apply execute_selected_coa_charts.
Qed.

(** X12.  A run that gets its table, with a [threat_level] column, draws
    one map, whatever happens later in the run: a deck with one layer that
    holds every row of the table in order.  The layer is a heatmap exactly
    for the option "Heatmap" and a pickable scatterplot for any other
    option; between two runs of the script the layer never has more than
    100 rows. *)
Theorem run_draws_one_map d inp s df :
  result_of (load_drone_anomalies d drone_anomaly_path s) = Ok df →
  "threat_level" ∈ columns df →
  let l := build_layer (layer_option inp) (with_weights (rows df)) in
  charts (events_of (script d inp s)) = [map_deck l] ∧
  layers (map_deck l) = [l] ∧
  source <$> data l = rows df ∧
  (layer_type l = "HeatmapLayer" ↔ layer_option inp = "Heatmap") ∧
  (layer_option inp ≠ "Heatmap" →
   layer_type l = "ScatterplotLayer" ∧ is_pickable l = true) ∧
  (reachable s → (length (data l) ≤ 100)%nat).
Proof.
  intros Hload Hcol l. split_and!.
  - by apply script_charts.
  - reflexivity.
  - subst l. by rewrite build_layer_data, with_weights_source.
  - by destruct (layer_modes (layer_option inp) (with_weights (rows df)))
      as [? _].
  - intros Hne.
    destruct (layer_modes (layer_option inp) (with_weights (rows df)))
      as (_ & Hs & _ & _ & Hp).
    split; [by apply Hs|by apply Hp].
  - intros Hr. subst l. rewrite build_layer_data. unfold with_weights.
    rewrite length_fmap.
    apply (load_capped_bound d drone_anomaly_path s df Hr Hload).
Qed.

(** *** A table without the threat level *)

Lemma load_ok_cached d (path : string) s df :
  result_of (load_drone_anomalies d path s) = Ok df →
  cache (state_after (load_drone_anomalies d path s)) !! path = Some df.
Proof.
  intros Hres. destruct (cache s !! path) as [v|] eqn:Hc.
  - erewrite load_hit in * by done. injection Hres as <-. exact Hc.
  - destruct (d path) as [v|e] eqn:Hd.
    + erewrite load_miss in * by done. injection Hres as <-.
      simpl. apply lookup_insert_eq.
    + by erewrite load_raise in Hres.
Qed.


Lemma script_key_error d inp s df :
  result_of (load_drone_anomalies d drone_anomaly_path s) = Ok df →
  "threat_level" ∉ columns df →
  script d inp s
  = (Raise (Exn "KeyError"),
     state_after (load_drone_anomalies d drone_anomaly_path s),
     events_of (load_drone_anomalies d drone_anomaly_path s)).
Proof.
  intros Hload Hcol.
  assert (load_drone_anomalies d drone_anomaly_path s
          = (Ok df, state_after (load_drone_anomalies d drone_anomaly_path s),
             events_of (load_drone_anomalies d drone_anomaly_path s)))
    as Hload'.
  { rewrite (run_eta (load_drone_anomalies d drone_anomaly_path s)) at 1.
    by rewrite Hload. }
  unfold script. rewrite (bind_ok _ _ _ _ _ _ Hload').
  rewrite map_data_key_error by done. rewrite bind_lift_raise.
  unfold result_of, state_after, events_of. simpl. by rewrite app_nil_r.
Qed.

(** X13.  When the table that a run gets has no [threat_level] column, the
    run stops at line 26 with a KeyError: nothing is drawn and the session
    state is untouched.  The table is in the store by then, so every later
    run stops in the same way without reading, whatever the disk holds. *)
Theorem missing_column_stops_every_run d inp s df :
  result_of (load_drone_anomalies d drone_anomaly_path s) = Ok df →
  "threat_level" ∉ columns df →
  let s1 := state_after (load_drone_anomalies d drone_anomaly_path s) in
  script d inp s
  = (Raise (Exn "KeyError"), s1,
     events_of (load_drone_anomalies d drone_anomaly_path s)) ∧
  charts (events_of (script d inp s)) = [] ∧
  session_state s1 = session_state s ∧
  (∀ d' inp', script d' inp' s1 = (Raise (Exn "KeyError"), s1, [])).
Proof.
  intros Hload Hcol s1. split_and!.
  - by apply (script_key_error d inp s df).
  - rewrite (script_key_error d inp s df Hload Hcol). apply load_charts.
  - apply load_session.
  - intros d' inp'.
    pose proof (load_ok_cached d drone_anomaly_path s df Hload) as Hc.
    fold s1 in Hc.
    assert (result_of (load_drone_anomalies d' drone_anomaly_path s1) = Ok df)
      as Hload' by by rewrite (load_hit d' _ s1 df Hc).
    rewrite (script_key_error d' inp' s1 df Hload' Hcol).
    by rewrite (load_hit d' _ s1 df Hc).
Qed.



(** *** Counting over a run *)

Lemma writes_app (key : string) (l1 l2 : list (event coord)) :
  writes key (l1 ++ l2) = writes key l1 ++ writes key l2.
Proof. apply omap_app. Qed.

Lemma alerts_app (l1 l2 : list (event coord)) :
  alerts (l1 ++ l2) = (alerts l1 + alerts l2)%nat.
Proof.
  unfold alerts. by rewrite writes_app, List.filter_app, length_app.
Qed.

Lemma load_alerts d (path : string) s :
  alerts (events_of (load_drone_anomalies d path s)) = 0%nat.
Proof.
  destruct (cache s !! path) as [df|] eqn:Hc.
  - by erewrite load_hit.
  - destruct (d path) as [df|e] eqn:Hd.
    + by erewrite load_miss.
    + by erewrite load_raise.
Qed.

Lemma session_state_init_alerts s :
  alerts (events_of (session_state_init s)) = 0%nat.
Proof.
  rewrite session_state_init_run. unfold events_of. simpl.
  by destruct (session_state s !! "alert_triggered"),
    (session_state s !! "show_surveillance"), (session_state s !! "coa_selected").
Qed.

Lemma activity_monitoring_alerts s inp :
  truthy (default VNone (session_state s !! "coa_selected")) = true →
  alerts (events_of (activity_monitoring inp s)) = 1%nat.
Proof.
  intros Hsel. unfold alerts.
  by destruct (activity_monitoring_events s inp Hsel) as (_ & -> & _).
Qed.

(** A run with a COA selected at its monitoring block, whatever started
    it: it returns, sleeps ten times and raises the alert once. *)
Lemma script_monitors d inp s df :
  result_of (load_drone_anomalies d drone_anomaly_path s) = Ok df →
  "threat_level" ∈ columns df →
  (clicked inp = Some "Execute Selected COA" → chosen_coa inp ∈ coa_options) →
  (clicked inp ≠ Some "Execute Selected COA" →
   truthy (default VNone (session_state s !! "coa_selected")) = true) →
  let run := script d inp s in
  result_of run = Ok tt ∧
  sleeps (events_of run) = replicate 10 1 ∧
  alerts (events_of run) = 1%nat ∧
  session_state (state_after run) !! "alert_triggered" = Some (VBool true) ∧
  truthy (default VNone (session_state (state_after run) !! "coa_selected")) = true ∧
  (clicked inp = Some "View Surveillance Video" →
   session_state (state_after run) !! "show_surveillance" = Some (VBool true)).
Proof.
  intros Hload Hcol Hexe Hother run. subst run.
  rewrite (script_ready d inp s df Hload Hcol).
  set (s1 := state_after (load_drone_anomalies d drone_anomaly_path s)).
  set (s2 := state_after (session_state_init s1)).
  assert (session_state s1 = session_state s) as Hs1 by apply load_session.
  pose proof (load_sleeps d drone_anomaly_path s) as Hl0s.
  pose proof (load_alerts d drone_anomaly_path s) as Hl0a.
  pose proof (session_state_init_events s1) as Hl1s.
  pose proof (session_state_init_alerts s1) as Hl1a.
  assert (∃ s3,
            execute_selected_coa inp s2
            = (Ok tt, s3, events_of (execute_selected_coa inp s2)) ∧
            sleeps (events_of (execute_selected_coa inp s2)) = [] ∧
            alerts (events_of (execute_selected_coa inp s2)) = 0%nat ∧
            truthy (default VNone (session_state s3 !! "coa_selected")) = true ∧
            is_Some (session_state s3 !! "show_surveillance"))
    as (s3 & Hexec & Hl2s & Hl2a & Hsel & Hshow).
  { destruct (decide (clicked inp = Some "Execute Selected COA")) as [Hc|Hc].
    - destruct (coa_action_found _ (Hexe Hc)) as (r & rs & Hfilter).
      eexists. rewrite execute_selected_coa_clicked by done. rewrite Hfilter.
      split_and!; [reflexivity|reflexivity|reflexivity| |].
      + simpl. rewrite !lookup_insert_ne by done. rewrite lookup_insert_eq.
        by apply coa_options_truthy, Hexe.
      + simpl. rewrite lookup_insert_eq. eauto.
    - exists s2. rewrite execute_selected_coa_other by done.
      split_and!; [reflexivity|reflexivity|reflexivity| |].
      + subst s2. rewrite init_coa_selected, Hs1. by apply Hother.
      + subst s2.
        destruct (session_state_init_defaults s1) as (_ & _ & _ & -> & _).
        eauto. }
  rewrite (bind_ok _ _ _ _ _ _ Hexec).
  pose proof (activity_monitoring_ok s3 inp Hshow) as Hok.
  pose proof (activity_monitoring_events s3 inp Hsel) as (Hl3s & _).
  pose proof (activity_monitoring_alerts s3 inp Hsel) as Hl3a.
  pose proof (activity_monitoring_state s3 inp Hsel) as Hstate.
  set (l0 := events_of (load_drone_anomalies d drone_anomaly_path s)) in *.
  set (l1 := events_of (session_state_init s1)) in *.
  set (l2 := events_of (execute_selected_coa inp s2)) in *.
  set (l3 := events_of (activity_monitoring inp s3)) in *.
  set (s4 := state_after (activity_monitoring inp s3)) in *.
  set (r3 := result_of (activity_monitoring inp s3)) in *.
  clearbody l0 l1 l2 l3 r3.
  unfold result_of, state_after, events_of. simpl.
  split_and!.
  - exact Hok.
  - rewrite !sleeps_app, Hl0s, Hl1s. simpl.
    change (sleeps (PydeckChart ?d :: ?l)) with (sleeps l).
    by rewrite sleeps_app, Hl2s, Hl3s.
  - rewrite !alerts_app, Hl0a, Hl1a. simpl.
    change (alerts (PydeckChart ?d :: ?l)) with (alerts l).
    by rewrite alerts_app, Hl2a, Hl3a.
  - rewrite Hstate. case_bool_decide; simpl.
    + rewrite lookup_insert_ne by done. apply lookup_insert_eq.
    + apply lookup_insert_eq.
  - subst s4. by rewrite activity_monitoring_lookup.
  - intros Hv. rewrite Hstate, bool_decide_true by done. simpl.
    apply lookup_insert_eq.
Qed.

Lemma runs_two (d : disk coord) (a b : inputs) s :
  runs d [a; b] s
  = (state_after (script d b (state_after (script d a s))),
     events_of (script d a s)
     ++ events_of (script d b (state_after (script d a s)))).
Proof. unfold runs. by rewrite app_nil_r. Qed.

(** *** The workflow, claim by claim *)

(** C1.  Whatever the state, the handler of "Execute Selected COA" leaves
    the session state with the chosen COA under [coa_selected] and with
    [alert_triggered] and [show_surveillance] both False; nothing else of
    the session state changes, and nothing of the three keys is carried
    over.  For a COA of the radio button the handler returns. *)
Theorem execute_coa_resets s inp :
  clicked inp = Some "Execute Selected COA" →
  let run := execute_selected_coa inp s in
  session_state (state_after run)
  = <["show_surveillance" := VBool false]>
      (<["alert_triggered" := VBool false]>
         (<["coa_selected" := VStr (chosen_coa inp)]> (session_state s))) ∧
  session_state (state_after run) !! "coa_selected" = Some (VStr (chosen_coa inp)) ∧
  session_state (state_after run) !! "alert_triggered" = Some (VBool false) ∧
  session_state (state_after run) !! "show_surveillance" = Some (VBool false) ∧
  (chosen_coa inp ∈ coa_options → result_of run = Ok tt).
Proof.
  intros Hc run. subst run. rewrite execute_selected_coa_clicked by done.
  unfold state_after, result_of. simpl. split_and!.
  - reflexivity.
  - rewrite !lookup_insert_ne by done. apply lookup_insert_eq.
  - rewrite lookup_insert_ne by done. apply lookup_insert_eq.
  - apply lookup_insert_eq.
  - intros Hin. destruct (coa_action_found _ Hin) as (r & rs & ->). reflexivity.
Qed.

(** C2, as the script has it.  In every run that comes to its monitoring
    block with a COA selected, the block sleeps ten times, one second each,
    then assigns True to [alert_triggered], once, and does not sleep after
    that; this holds whatever else the state is, and the alert is on when
    the block ends.  The run that executes a COA of the radio button is
    such a run, and so is every later run of the pass: a pass of two runs,
    "Execute Selected COA" and then "View Surveillance Video", sleeps
    twenty times and assigns True twice. *)
Theorem monitoring_countdown_alert :
  range 10 0 (-1) = [10; 9; 8; 7; 6; 5; 4; 3; 2; 1] ∧
  (∀ s inp,
     truthy (default VNone (session_state s !! "coa_selected")) = true →
     let run := activity_monitoring inp s in
     sleeps (events_of run) = replicate 10 1 ∧
     writes "alert_triggered" (events_of run) = [VBool true] ∧
     sleeps (from_write "alert_triggered" (events_of run)) = [] ∧
     session_state (state_after run) !! "alert_triggered" = Some (VBool true)) ∧
  (∀ d inp s df,
     result_of (load_drone_anomalies d drone_anomaly_path s) = Ok df →
     "threat_level" ∈ columns df →
     clicked inp = Some "Execute Selected COA" →
     chosen_coa inp ∈ coa_options →
     let run := script d inp s in
     result_of run = Ok tt ∧
     sleeps (events_of run) = replicate 10 1 ∧
     alerts (events_of run) = 1%nat ∧
     session_state (state_after run) !! "coa_selected"
     = Some (VStr (chosen_coa inp)) ∧
     session_state (state_after run) !! "alert_triggered" = Some (VBool true) ∧
     session_state (state_after run) !! "show_surveillance" = Some (VBool false)) ∧
  (∀ d execute view s df,
     result_of (load_drone_anomalies d drone_anomaly_path s) = Ok df →
     "threat_level" ∈ columns df →
     clicked execute = Some "Execute Selected COA" →
     chosen_coa execute ∈ coa_options →
     clicked view = Some "View Surveillance Video" →
     let pass := runs d [execute; view] s in
     sleeps pass.2 = replicate 20 1 ∧
     alerts pass.2 = 2%nat ∧
     session_state pass.1 !! "alert_triggered" = Some (VBool true) ∧
     session_state pass.1 !! "show_surveillance" = Some (VBool true)).
Proof.
  split_and!.
  - reflexivity.
  - intros s inp Hsel run. subst run.
    destruct (activity_monitoring_events s inp Hsel) as (Hs & Hw & Ha).
    split_and!; [done|done|done|].
    rewrite activity_monitoring_state by done.
    case_bool_decide; simpl.
    + rewrite lookup_insert_ne by done. apply lookup_insert_eq.
    + apply lookup_insert_eq.
  - intros d inp s df Hload Hcol Hc Hin run.
    destruct (script_execute d inp s df Hload Hcol Hc Hin)
      as (Hok & Hs & Hcoa & Ha & Hshow).
    destruct (script_monitors d inp s df Hload Hcol) as (_ & _ & Hn & _);
      [done|done|].
    by split_and!.
  - intros d execute view s df Hload Hcol Hce Hin Hcv pass. subst pass.
    destruct (script_monitors d execute s df Hload Hcol)
      as (_ & Hs1 & Ha1 & _ & Hsel1 & _); [done|done|].
    set (s' := state_after (script d execute s)) in *.
    assert (cache s' !! drone_anomaly_path = Some df) as Hcache.
    { subst s'. rewrite script_cache. by apply load_ok_cached. }
    assert (result_of (load_drone_anomalies d drone_anomaly_path s') = Ok df)
      as Hload' by by rewrite (load_hit d _ s' df Hcache).
    destruct (script_monitors d view s' df Hload' Hcol)
      as (_ & Hs2 & Ha2 & Hal & _ & Hshow).
    { intros Heq. rewrite Hcv in Heq. discriminate Heq. }
    { done. }
    rewrite runs_two. fold s'. unfold fst, snd.
    rewrite sleeps_app, alerts_app, Hs1, Hs2, Ha1, Ha2.
    split_and!; [reflexivity|reflexivity|exact Hal|by apply Hshow].
Qed.


(** C6, as the script has it.  For a table with a [threat_level] column the
    map data is built without an exception, whatever the threat levels
    are.  In both modes the layer keeps every record, in order; a record
    with an unrecognized threat level is in the layer as well, with weight
    NaN; and the run draws the map with this layer. *)
Theorem build_layer_keeps_all df (mode : string) :
  "threat_level" ∈ columns df →
  ∃ md,
    map_data df = Ok md ∧
    source <$> data (build_layer mode md) = rows df ∧
    (∀ (i : nat) r, rows df !! i = Some r → ¬ recognized (threat_level r) →
       data (build_layer mode md) !! i
       = Some {| source := r; weight := NaN |}) ∧
    (∀ d inp s,
       result_of (load_drone_anomalies d drone_anomaly_path s) = Ok df →
       charts (events_of (script d inp s))
       = [map_deck (build_layer (layer_option inp) md)]).
Proof.
  intros Hcol. exists (with_weights (rows df)). split_and!.
  - by apply map_data_ok.
  - by rewrite build_layer_data, with_weights_source.
  - intros i r Hi Hn.
    rewrite build_layer_data, with_weights_lookup, Hi. simpl.
    by rewrite series_map_unrecognized.
  - intros d inp s Hload. by apply script_charts.
Qed.

(** X14.  Both layers hold the records as their rows, in order.  The
    scatterplot has the radius 1000 for every point and is pickable, and
    the tooltip of the deck names the anomaly type, the threat level and
    the recommended action.  The heatmap takes its weights from the column
    [weight]: the weight of a point is the weight of the threat level of
    its record. *)
Theorem layer_rows_radius_weight records :
  let scatter := build_layer "Scatterplot" (with_weights records) in
  let heat := build_layer "Heatmap" (with_weights records) in
  source <$> data scatter = records ∧
  point_radius scatter = Some 1000 ∧
  is_pickable scatter = true ∧
  template_fields (tooltip_html (map_deck scatter))
  = ["anomaly_type"; "threat_level"; "recommended_action"] ∧
  source <$> data heat = records ∧
  prop "get_weight" heat = Some (KStr "@@=weight") ∧
  (∀ mr, mr ∈ data heat →
     ∃ w, point_weight heat mr = Some (FNumber w) ∧
          ThreatEncoder.weight (threat_level (source mr)) = Ok w).
Proof.
  intros scatter heat. subst scatter heat. split_and!.
  - by rewrite build_layer_data, with_weights_source.
  - reflexivity.
  - reflexivity.
  - reflexivity.
  - by rewrite build_layer_data, with_weights_source.
  - reflexivity.
  - intros mr Hin. rewrite build_layer_data in Hin.
    unfold with_weights in Hin. apply list_elem_of_fmap in Hin as (r & -> & _).
    eexists. split; reflexivity.
Qed.

End Properties.

(** ** The claims and the properties on sample data *)

Lemma schema_has_threat_level : "threat_level" ∈ Sample.schema.
Proof. apply list_elem_of_lookup. by exists 3%nat. Qed.

Lemma unrated_lacks_threat_level : "threat_level" ∉ columns Sample.unrated.
Proof.
  intros H. apply list_elem_of_In in H. simpl in H.
  destruct H as [H|[H|[H|[]]]]; discriminate H.
Qed.

(** C2 as stated fails: the pass that executes "COA 1" and then views the
    surveillance video sleeps twenty times, not ten, and assigns True to
    [alert_triggered] twice, once in each of its two runs. *)
Lemma pass_with_reveal_counts_twice :
  let pass := runs (Sample.files Sample.table)
                [Sample.execute "COA 1"; Sample.view] start in
  sleeps pass.2 = replicate 20 1 ∧
  writes "alert_triggered" pass.2
  = [VBool false; VBool false; VBool true; VBool true] ∧
  alerts pass.2 = 2%nat ∧
  ¬ (∀ (d : disk Z) execute view s df,
       result_of (load_drone_anomalies d drone_anomaly_path s) = Ok df →
       "threat_level" ∈ columns df →
       clicked execute = Some "Execute Selected COA" →
       chosen_coa execute ∈ coa_options →
       clicked view = Some "View Surveillance Video" →
       sleeps (runs d [execute; view] s).2 = replicate 10 1 ∧
       alerts (runs d [execute; view] s).2 = 1%nat).
Proof.
  split_and!; [reflexivity|reflexivity|reflexivity|].
  intros Hall.
  destruct (Hall (Sample.files Sample.table) (Sample.execute "COA 1")
              Sample.view start Sample.table) as [_ Hone];
    [reflexivity|exact schema_has_threat_level|reflexivity| |reflexivity|].
  - apply list_elem_of_lookup. by exists 0%nat.
  - discriminate Hone.
Qed.


(** C5 as stated fails: for the level "Critical" the weight is NaN and the
    colour is green, and nothing is raised. *)
Lemma threat_encoder_unrecognized_no_error :
  ¬ recognized (CStr "Critical") ∧
  ThreatEncoder.weight (CStr "Critical") = Ok NaN ∧
  ThreatEncoder.color (CStr "Critical") = Ok green ∧
  ¬ (∀ level, ¬ recognized level →
       ThreatEncoder.weight level = Raise (Exn "UnrecognizedThreatLevel") ∧
       ThreatEncoder.color level = Raise (Exn "UnrecognizedThreatLevel")).
Proof.
  assert (¬ recognized (CStr "Critical")) as Hn.
  { intros [H|[H|H]]; discriminate H. }
  split_and!; [done|reflexivity|reflexivity|].
  intros Hall. destruct (Hall _ Hn) as [_ Hc]. discriminate Hc.
Qed.

(** C6 as stated fails: the record with the level "Critical" is in the
    heatmap layer and in the scatterplot layer, and nothing is raised. *)
Lemma build_layer_keeps_unrecognized :
  let records := [Sample.high; Sample.critical] in
  ¬ recognized (threat_level Sample.critical) ∧
  map_data (Sample.frame_of records) = Ok (with_weights records) ∧
  Sample.critical ∈ source <$> data (build_layer "Heatmap" (with_weights records)) ∧
  Sample.critical
  ∈ source <$> data (build_layer "Scatterplot" (with_weights records)) ∧
  ¬ (∀ (df : frame Z) mode md r,
       mode ∈ layer_options → map_data df = Ok md →
       r ∈ rows df → ¬ recognized (threat_level r) →
       r ∉ source <$> data (build_layer mode md)).
Proof.
  assert (¬ recognized (threat_level Sample.critical)) as Hn.
  { intros [H|[H|H]]; discriminate H. }
  assert (Sample.critical ∈ [Sample.high; Sample.critical]) as Hin.
  { apply list_elem_of_lookup. by exists 1%nat. }
  split_and!; [done|reflexivity|exact Hin|exact Hin|].
  intros Hall.
  apply (Hall (Sample.frame_of [Sample.high; Sample.critical]) "Heatmap"
           (with_weights [Sample.high; Sample.critical]) Sample.critical);
    [|reflexivity|exact Hin|exact Hn|exact Hin].
  apply list_elem_of_lookup. by exists 0%nat.
Qed.

(** C9, at a table with a High and a Low record.  The comprehension of
    lines 99-104 gives red for the first and green for the second, but the
    scatterplot layer has no colour for each point: [pdk.Layer] joins the
    list into the one expression that the layer keeps under [get_color] for
    all its points.  It is neither the colour of the High record nor the
    colour of the Low record. *)
Theorem scatter_colors_joined :
  let md := with_weights [Sample.high; Sample.low] in
  let scatter := build_layer "Scatterplot" md in
  source <$> data scatter = [Sample.high; Sample.low] ∧
  color_list md = [red; green] ∧
  prop "get_color" scatter = Some (KStr "@@=[255, 0, 0, 160, 0, 128, 0, 160]") ∧
  prop "get_color" scatter ≠ Some (layer_prop (KList [red])) ∧
  prop "get_color" scatter ≠ Some (layer_prop (KList [green])) ∧
  prop "get_color" scatter ≠ Some (KList [red; green]).
Proof.
  split_and!; [reflexivity|reflexivity|reflexivity| | |]; discriminate.
Qed.

Lemma threat_encoder_recognized_witness :
  ThreatEncoder.weight (threat_level Sample.high) = Ok (Num 3) ∧
  ThreatEncoder.color (threat_level Sample.high) = Ok red.
Proof.
  apply (threat_encoder_recognized Sample.high Sample.high). reflexivity.
Defined.

Lemma threat_encoder_unrecognized_witness :
  ThreatEncoder.weight (CStr "Critical") = Ok NaN ∧
  ThreatEncoder.color (CStr "Critical") = Ok green.
Proof.
  apply threat_encoder_unrecognized.
  intros [H|[H|H]]; discriminate H.
Defined.


Lemma build_layer_keeps_all_witness :
  ∃ md,
    map_data (Sample.frame_of [Sample.high; Sample.critical]) = Ok md ∧
    data (build_layer "Heatmap" md) !! 1%nat
    = Some {| source := Sample.critical; weight := NaN |}.
Proof.
  destruct (build_layer_keeps_all
              (Sample.frame_of [Sample.high; Sample.critical]) "Heatmap"
              schema_has_threat_level) as (md & Hmd & _ & Hrow & _).
  exists md. split; [exact Hmd|].
  apply (Hrow 1%nat Sample.critical); [reflexivity|].
  intros [H|[H|H]]; discriminate H.
Defined.

Lemma load_capped_in_order_witness :
  result_of (load_drone_anomalies (Sample.files Sample.table) drone_anomaly_path start)
  = Ok Sample.table.
Proof.
  destruct (load_capped_in_order (coord:=Z)) as [Hread _].
  apply (Hread (Sample.files Sample.table) drone_anomaly_path start Sample.table);
    reflexivity.
Defined.

Lemma load_cached_witness :
  let s1 := state_after
              (load_drone_anomalies (Sample.files Sample.table) drone_anomaly_path start) in
  load_drone_anomalies (Sample.files (Sample.frame_of [])) drone_anomaly_path s1
  = (Ok Sample.table, s1, []).
Proof.
  apply (load_cached (Sample.files Sample.table)
           (Sample.files (Sample.frame_of []))
           drone_anomaly_path start Sample.table).
  reflexivity.
Defined.

Lemma execute_coa_resets_witness :
  let run := execute_selected_coa (Sample.execute "COA 2")
               (Sample.session (VStr "COA 1") (VBool true) (VBool true)) in
  session_state (state_after run) !! "coa_selected" = Some (VStr "COA 2") ∧
  session_state (state_after run) !! "alert_triggered" = Some (VBool false) ∧
  session_state (state_after run) !! "show_surveillance" = Some (VBool false) ∧
  result_of run = Ok tt.
Proof.
  destruct (execute_coa_resets
              (Sample.session (VStr "COA 1") (VBool true) (VBool true))
              (Sample.execute "COA 2") eq_refl) as (_ & Hsel & Ha & Hs & Hok).
  split_and!; [exact Hsel|exact Ha|exact Hs|].
  apply Hok. apply list_elem_of_lookup. by exists 1%nat.
Defined.

Lemma monitoring_countdown_alert_witness :
  let run := script (Sample.files Sample.table) (Sample.execute "COA 1") start in
  result_of run = Ok tt ∧
  sleeps (events_of run) = [1; 1; 1; 1; 1; 1; 1; 1; 1; 1] ∧
  alerts (events_of run) = 1%nat ∧
  session_state (state_after run) !! "alert_triggered" = Some (VBool true).
Proof.
  destruct (monitoring_countdown_alert (coord:=Z)) as (_ & _ & Hscript & _).
  destruct (Hscript (Sample.files Sample.table) (Sample.execute "COA 1") start
              Sample.table eq_refl schema_has_threat_level eq_refl)
    as (Hok & Hs & Hn & _ & Ha & _).
  - apply list_elem_of_lookup. by exists 0%nat.
  - split_and!; [exact Hok|exact Hs|exact Hn|exact Ha].
Defined.


Lemma weight_decodes_level_witness :
  threat_level Sample.high = threat_level Sample.breach ∧
  series_map threat_level_weights (threat_level Sample.critical) = NaN.
Proof.
  split.
  - apply (weight_decodes_level Sample.high Sample.breach) with (z := 3);
      reflexivity.
  - apply (weight_decodes_level Sample.critical Sample.high).
    intros [H|[H|H]]; discriminate H.
Defined.

Lemma color_decodes_level_witness : get_color CNaN = green.
Proof.
  apply (color_decodes_level CNaN). split; discriminate.
Defined.

Lemma load_whole_or_100_witness :
  ∃ df', result_of (load_drone_anomalies
                      (Sample.files (Sample.frame_of (replicate 101 Sample.high)))
                      drone_anomaly_path start) = Ok df' ∧
         length (rows df') = 100%nat ∧
         columns df' = Sample.schema ∧
         df' ≠ Sample.frame_of (replicate 101 Sample.high).
Proof.
  apply (load_whole_or_100
           (Sample.files (Sample.frame_of (replicate 101 Sample.high)))
           drone_anomaly_path start
           (Sample.frame_of (replicate 101 Sample.high)));
    [reflexivity|reflexivity|].
  simpl. lia.
Defined.

Lemma script_load_failure_witness :
  script Sample.missing Sample.toggle start
  = (Raise (Exn "FileNotFoundError"), start, [ReadCsv drone_anomaly_path]).
Proof.
  apply (script_load_failure Sample.missing Sample.toggle start); reflexivity.
Defined.

Lemma table_stable_once_cached_witness :
  script (Sample.files Sample.table) Sample.toggle Sample.loaded
  = script Sample.missing Sample.toggle Sample.loaded.
Proof.
  apply (table_stable_once_cached (Sample.files Sample.table) Sample.missing
           Sample.toggle Sample.loaded Sample.table).
  reflexivity.
Defined.

Lemma session_state_init_defaults_witness :
  session_state (state_after (session_state_init Sample.loaded)) !! "coa_selected"
  = Some VNone.
Proof.
  destruct (session_state_init_defaults Sample.loaded)
    as (_ & Hkeep & _ & _ & Hcoa & _).
  exact Hcoa.
Defined.

Lemma rerun_repeats_countdown_witness :
  let run := script (Sample.files Sample.table) Sample.toggle
               (Sample.session (VStr "COA 1") (VBool true) (VBool false)) in
  result_of run = Ok tt ∧
  sleeps (events_of run) = [1; 1; 1; 1; 1; 1; 1; 1; 1; 1] ∧
  videos (events_of run) = ["https://i.imgur.com/h4ghtfH.mp4"].
Proof.
  destruct (rerun_repeats_countdown (Sample.files Sample.table) Sample.toggle
              (Sample.session (VStr "COA 1") (VBool true) (VBool false))
              Sample.table) as (Hok & Hs & _ & Hv);
    [reflexivity|exact schema_has_threat_level|discriminate|reflexivity|].
  split_and!; [exact Hok|exact Hs|exact Hv].
Defined.

Lemma idle_run_is_quiet_witness :
  let run := script (Sample.files Sample.table) Sample.toggle start in
  result_of run = Ok tt ∧ sleeps (events_of run) = [] ∧
  writes "alert_triggered" (events_of run) = [VBool false].
Proof.
  destruct (idle_run_is_quiet (Sample.files Sample.table) Sample.toggle start
              Sample.table) as (Hok & Hs & _ & Hw & _);
    [reflexivity|exact schema_has_threat_level|discriminate|reflexivity|].
  split_and!; [exact Hok|exact Hs|exact Hw].
Defined.

Lemma script_completes_witness :
  result_of (script (Sample.files Sample.table) Sample.view
               (Sample.session (VStr "COA 3") (VBool true) (VBool false)))
  = Ok tt.
Proof.
  apply (script_completes (Sample.files Sample.table) Sample.view
           (Sample.session (VStr "COA 3") (VBool true) (VBool false))
           Sample.table);
    [reflexivity|exact schema_has_threat_level|discriminate].
Defined.

Lemma only_execute_resets_witness :
  session_state
    (state_after
       (script Sample.missing Sample.toggle
          (Sample.session (VStr "COA 2") (VBool true) (VBool true))))
  !! "coa_selected" = Some (VStr "COA 2").
Proof.
  destruct (only_execute_resets Sample.missing Sample.toggle
              (Sample.session (VStr "COA 2") (VBool true) (VBool true)))
    as (Hcoa & _ & _); [discriminate|].
  apply Hcoa. reflexivity.
Defined.

Lemma alert_only_with_selection_witness :
  alert_after_selection
    (state_after (script (Sample.files Sample.table) (Sample.execute "COA 1") start)).
Proof.
  apply (alert_only_with_selection
           (state_after
              (script (Sample.files Sample.table) (Sample.execute "COA 1") start))).
  apply reachable_run, reachable_start.
Defined.

Lemma run_draws_one_map_witness :
  charts (events_of (script (Sample.files Sample.table) Sample.toggle start))
  = [map_deck (build_layer "Scatterplot" (with_weights (rows Sample.table)))].
Proof.
  apply (run_draws_one_map (Sample.files Sample.table) Sample.toggle start
           Sample.table); [reflexivity|exact schema_has_threat_level].
Defined.

Lemma missing_column_stops_every_run_witness :
  let s1 := state_after
              (load_drone_anomalies (Sample.files Sample.unrated)
                 drone_anomaly_path start) in
  script (Sample.files Sample.unrated) Sample.toggle start
  = (Raise (Exn "KeyError"), s1, [ReadCsv drone_anomaly_path]) ∧
  script (Sample.files Sample.table) (Sample.execute "COA 1") s1
  = (Raise (Exn "KeyError"), s1, []).
Proof.
  destruct (missing_column_stops_every_run (Sample.files Sample.unrated)
              Sample.toggle start Sample.unrated eq_refl
              unrated_lacks_threat_level) as (Hrun & _ & _ & Hlater).
  split; [exact Hrun|apply Hlater].
Defined.

Lemma layer_rows_radius_weight_witness :
  point_weight (build_layer "Heatmap" (with_weights (rows Sample.table)))
    {| source := Sample.low; weight := Num 1 |} = Some (FNumber (Num 1)).
Proof.
  destruct (layer_rows_radius_weight (rows Sample.table))
    as (_ & _ & _ & _ & _ & _ & Hw).
  destruct (Hw {| source := Sample.low; weight := Num 1 |}) as (w & Hp & Hwt).
  - apply list_elem_of_lookup. by exists 1%nat.
  - injection Hwt as <-. exact Hp.
Defined.
